(** * Skill-document validator: a shallow embedding of [scripts/validate_skill.py]

    The development follows the source file top-down: the Python primitives
    the validator calls ([str] methods, the four regular expressions,
    [os.path]), the values a YAML loader can hand back, the two frontmatter
    parsers, the four rules, and the file and directory entry points.
    The packager [scripts/package_skill.py], which runs the directory entry
    point before it writes an archive, follows the validator.

    Modelling conventions.
    - A Python [str] is a [string]; a character is a code point below 256
      (the Latin-1 range of Unicode), so [ascii] stands for a code point and
      the case and whitespace tables below are those of Python on that range.
    - An uncaught Python exception is a value [Raise e] of the error monad
      [Exc]; a function that cannot raise returns its result directly.
    - The file system is a record of the three queries the validator makes.
    - The strict parser is PyYAML's [yaml.safe_load], a third-party library:
      it is a parameter, [None] when the import at the top of the module
      failed ([yaml = None]). *)

From Stdlib Require Import String Ascii List Bool Arith ZArith Lia.
From Stdlib Require Import DecimalString.
Import ListNotations.

Local Open Scope string_scope.
Local Open Scope list_scope.
Local Open Scope bool_scope.

(* ================================================================= *)
(** ** Python string primitives *)

Module Py.

Definition chars (s : string) : list ascii := list_ascii_of_string s.
Definition str (l : list ascii) : string := string_of_list_ascii l.

Definition newline : ascii := "010"%char.
Definition tab : ascii := "009"%char.

(** [str.isspace] on one character, for code points below 256: the ASCII
    controls 9-13 and 28-31, the space, U+0085 and U+00A0.  [str.strip],
    [str.split] and the regular-expression class [\s] all use this set. *)
Definition isspace (c : ascii) : bool :=
  let n := nat_of_ascii c in
  (((9 <=? n) && (n <=? 13)) || ((28 <=? n) && (n <=? 32))
   || (n =? 133) || (n =? 160))%nat.

(** [str.lower] on one character: A-Z, and the Latin-1 capitals
    U+00C0-U+00DE except the multiplication sign U+00D7, move up by 32. *)
Definition lower_char (c : ascii) : ascii :=
  let n := nat_of_ascii c in
  if (((65 <=? n) && (n <=? 90))
      || ((192 <=? n) && (n <=? 222) && negb (n =? 215)))%nat
  then ascii_of_nat (n + 32) else c.

Fixpoint lower (s : string) : string :=
  match s with
  | EmptyString => EmptyString
  | String c r => String (lower_char c) (lower r)
  end.

Fixpoint dropwhile (p : ascii -> bool) (l : list ascii) : list ascii :=
  match l with
  | [] => []
  | c :: r => if p c then dropwhile p r else l
  end.

Fixpoint takewhile (p : ascii -> bool) (l : list ascii) : list ascii :=
  match l with
  | [] => []
  | c :: r => if p c then c :: takewhile p r else []
  end.

Definition lstrip (s : string) : string := str (dropwhile isspace (chars s)).
Definition rstrip (s : string) : string :=
  str (rev (dropwhile isspace (rev (chars s)))).

(** [s.strip()] *)
Definition strip (s : string) : string := lstrip (rstrip s).

(** [s.startswith(p)] and [s.endswith(p)] *)
Definition startswith (s p : string) : bool := String.prefix p s.
Definition endswith (s p : string) : bool :=
  String.prefix (str (rev (chars p))) (str (rev (chars s))).

(** [needle in hay] for two strings *)
Fixpoint contains (needle hay : string) : bool :=
  String.prefix needle hay
  || match hay with
     | EmptyString => false
     | String _ r => contains needle r
     end.

(** [s.split("\n")]: never empty, [""] splits to [[""]]. *)
Fixpoint split_nl (s : string) : list string :=
  match s with
  | EmptyString => [EmptyString]
  | String c r =>
      if Ascii.eqb c newline then EmptyString :: split_nl r
      else match split_nl r with
           | [] => [String c EmptyString]
           | l :: ls => String c l :: ls
           end
  end.

(** ["\n".join(ls)] *)
Definition join_nl (ls : list string) : string := String.concat (String newline "") ls.

(** [s.split()]: the maximal runs of non-whitespace characters.  [cur] is the
    run being read, in reverse. *)
Fixpoint split_ws_from (cur : list ascii) (l : list ascii) : list string :=
  match l with
  | [] => match cur with [] => [] | _ => [str (rev cur)] end
  | c :: r =>
      if isspace c
      then match cur with
           | [] => split_ws_from [] r
           | _ => str (rev cur) :: split_ws_from [] r
           end
      else split_ws_from (c :: cur) r
  end.

Definition split_ws (s : string) : list string := split_ws_from [] (chars s).

(** [s[:n]] and [s[1:-1]] *)
Definition slice_to (n : nat) (s : string) : string := String.substring 0 n s.
Definition slice_1_m1 (s : string) : string :=
  str (removelast (tl (chars s))).

(** [str(n)] for a natural number, as an f-string prints [len(...)]. *)
Definition str_of_nat (n : nat) : string := NilZero.string_of_uint (Nat.to_uint n).

(** [sorted(ks)] for strings: ordered by code points (insertion sort). *)
Fixpoint insert_sorted (k : string) (ks : list string) : list string :=
  match ks with
  | [] => [k]
  | h :: t => if String.leb k h then k :: ks else h :: insert_sorted k t
  end.

Definition sorted (ks : list string) : list string :=
  fold_right insert_sorted [] ks.

(** [set(ks)] keeps one copy of each element. *)
Fixpoint dedup (ks : list string) : list string :=
  match ks with
  | [] => []
  | k :: t => if existsb (String.eqb k) t then dedup t else k :: dedup t
  end.

(** [", ".join(ks)] *)
Definition join_comma (ks : list string) : string := String.concat ", " ks.

(** [os.path.join(a, b)] of posixpath. *)
Definition path_join (a b : string) : string :=
  if startswith b "/" then b
  else if (a =? "") || endswith a "/" then a ++ b
  else a ++ "/" ++ b.

End Py.

(* ================================================================= *)
(** ** The regular expressions of the module

    Each pattern is written as the scanner that [re.match] (or [re.findall])
    amounts to on it.  The character classes of one pattern are pairwise
    disjoint from what must follow them, so the greedy run is the only split
    that can succeed and no backtracking is needed. *)

Module Re.

Import Py.

Definition in_range (lo hi : nat) (c : ascii) : bool :=
  let n := nat_of_ascii c in ((lo <=? n) && (n <=? hi))%nat.

Definition is_digit (c : ascii) : bool := in_range 48 57 c.
Definition is_lower_letter (c : ascii) : bool := in_range 97 122 c.
Definition is_upper_letter (c : ascii) : bool := in_range 65 90 c.

(** [[a-z0-9]] and [[a-z0-9-]] *)
Definition is_lower_alnum (c : ascii) : bool := is_lower_letter c || is_digit c.
Definition is_name_char (c : ascii) : bool := is_lower_alnum c || Ascii.eqb c "-".

(** [[a-zA-Z_]] and [[a-zA-Z0-9_]] *)
Definition is_ident_start (c : ascii) : bool :=
  is_lower_letter c || is_upper_letter c || Ascii.eqb c "_".
Definition is_ident_char (c : ascii) : bool := is_ident_start c || is_digit c.

(** [$] without [re.MULTILINE]: at the end of the string, or just before a
    newline that is the last character of the string. *)
Definition at_dollar (rest : list ascii) : bool :=
  match rest with
  | [] => true
  | [c] => Ascii.eqb c newline
  | _ => false
  end.

(** [[a-z0-9-]*[a-z0-9]$] on the rest of a name *)
Fixpoint name_tail (l : list ascii) : bool :=
  match l with
  | [] => false
  | c :: r => (is_lower_alnum c && at_dollar r) || (is_name_char c && name_tail r)
  end.

(** [NAME_PATTERN.match(name)] is not [None], for
    [NAME_PATTERN = re.compile(r'^[a-z0-9][a-z0-9-]*[a-z0-9]$|^[a-z0-9]$')]. *)
Definition NAME_PATTERN_match (name : string) : bool :=
  match chars name with
  | [] => false
  | c :: r => is_lower_alnum c && (name_tail r || at_dollar r)
  end.

(** [re.match(r'^[a-z0-9-]+$', name)] is not [None]. *)
Fixpoint name_chars_plus (l : list ascii) : bool :=
  match l with
  | [] => false
  | c :: r => is_name_char c && (at_dollar r || name_chars_plus r)
  end.

Definition only_name_chars_match (name : string) : bool := name_chars_plus (chars name).

(** [re.match] of a line against the key pattern of
    [_parse_simple_frontmatter]: group 1 is [[a-zA-Z_][a-zA-Z0-9_]*], then
    come [\s*], a colon and [\s*], group 2 is [.*], and [$] ends the pattern.
    The result is the two groups when the line matches.  The identifier run,
    the whitespace runs and the colon are disjoint classes, so each run is
    maximal; [.] stops at a newline, and giving back whitespace to group 2
    never reaches a position where [$] holds unless the greedy attempt
    already did. *)
Definition key_line_match (line : string) : option (string * string) :=
  let l := chars line in
  match l with
  | [] => None
  | c :: _ =>
      if is_ident_start c then
        let key := takewhile is_ident_char l in
        match dropwhile isspace (dropwhile is_ident_char l) with
        | colon :: after =>
            if Ascii.eqb colon ":" then
              let v := dropwhile isspace after in
              let not_nl := fun c => negb (Ascii.eqb c newline) in
              if at_dollar (dropwhile not_nl v)
              then Some (str key, str (takewhile not_nl v))
              else None
            else None
        | [] => None
        end
      else None
  end.

(** The extensions of [(md|py|sh|json)]. *)
Definition ref_extensions : list string := ["md"; "py"; "sh"; "json"].

(** The text between two backticks is a match of [[^`]+\.(md|py|sh|json)]
    when it ends in a dot and one of the extensions, with at least one
    character before the dot. *)
Definition is_file_ref (r : string) : bool :=
  existsb (fun ext => endswith r ("." ++ ext)
                      && (String.length ext + 1 <? String.length r)%nat)
          ref_extensions.

(** [re.findall(r'`([^`]+\.(md|py|sh|json))`', content)], first group of each
    match.  [inside] is [None] before an opening backtick, and otherwise the
    run read since the last backtick, in reverse.  At a backtick that closes
    a file reference the scan resumes after it; at any other backtick the
    attempt that began at the previous one fails, and this backtick is the
    next place where a match can begin. *)
Fixpoint findall_from (inside : option (list ascii)) (l : list ascii) : list string :=
  match l with
  | [] => []
  | c :: r =>
      if Ascii.eqb c "`" then
        match inside with
        | None => findall_from (Some []) r
        | Some run =>
            let ref := str (rev run) in
            if is_file_ref ref then ref :: findall_from None r
            else findall_from (Some []) r
        end
      else
        match inside with
        | None => findall_from None r
        | Some run => findall_from (Some (c :: run)) r
        end
  end.

Definition findall_file_refs (content : string) : list string :=
  findall_from None (chars content).

End Re.

(* ================================================================= *)
(** ** Python values and exceptions *)

(** What [yaml.safe_load] can return, and so what a frontmatter field can
    hold.  A float is its IEEE-754 binary64 bit pattern; a date is its ISO
    text.  A [dict] is an association list in insertion order, without
    repeated keys. *)
#[warnings="-register-all"]
Inductive PyVal : Type :=
| PNone
| PBool (b : bool)
| PInt (z : Z)
| PFloat (bits : Z)
| PStr (s : string)
| PBytes (s : string)
| PDate (iso : string)
| PDateTime (iso : string)
| PList (l : list PyVal)
| PSet (l : list PyVal)
| PDict (d : list (PyVal * PyVal)).

Definition PyDict : Type := list (PyVal * PyVal).

(** [bool(v)] *)
Definition truthy (v : PyVal) : bool :=
  match v with
  | PNone => false
  | PBool b => b
  | PInt z => negb (z =? 0)%Z
  | PFloat bits => negb (Z.land bits (Z.ones 63) =? 0)%Z
  | PStr s | PBytes s => negb (s =? "")
  | PDate _ | PDateTime _ => true
  | PList l | PSet l => match l with [] => false | _ => true end
  | PDict d => match d with [] => false | _ => true end
  end.

(** [isinstance(v, str)] *)
Definition is_str (v : PyVal) : bool :=
  match v with PStr _ => true | _ => false end.

(** [type(v).__name__] *)
Definition type_name (v : PyVal) : string :=
  match v with
  | PNone => "NoneType"
  | PBool _ => "bool"
  | PInt _ => "int"
  | PFloat _ => "float"
  | PStr _ => "str"
  | PBytes _ => "bytes"
  | PDate _ => "date"
  | PDateTime _ => "datetime"
  | PList _ => "list"
  | PSet _ => "set"
  | PDict _ => "dict"
  end.

(** An uncaught exception; [op] is the expression that raised it. *)
Inductive PyExn : Type :=
| TypeError (op : string)
| AttributeError (op : string).

Inductive Exc (A : Type) : Type :=
| Ret (a : A)
| Raise (e : PyExn).

Arguments Ret {A} a.
Arguments Raise {A} e.

Definition bind {A B : Type} (m : Exc A) (k : A -> Exc B) : Exc B :=
  match m with
  | Ret a => k a
  | Raise e => Raise e
  end.

Notation "x <- m ;; k" := (bind m (fun x => k))
  (at level 61, m at next level, right associativity).

(** [len(v)] *)
Definition py_len (v : PyVal) : Exc nat :=
  match v with
  | PStr s | PBytes s => Ret (String.length s)
  | PList l | PSet l => Ret (List.length l)
  | PDict d => Ret (List.length d)
  | _ => Raise (TypeError "len(description)")
  end.

(** [v[:100] + "..."]: only a [str] has both the slice and the
    concatenation with a [str].  (Slicing a [dict] raises [KeyError] instead
    of [TypeError] from CPython 3.12 on.) *)
Definition py_slice100_dots (v : PyVal) : Exc PyVal :=
  match v with
  | PStr s => Ret (PStr (Py.slice_to 100 s ++ "..."))
  | _ => Raise (TypeError "description[:100] + '...'")
  end.

(** [d.get(k)] and [d[k] = v] for a [str] key *)
Definition key_is (k : string) (k' : PyVal) : bool :=
  match k' with PStr s => (s =? k) | _ => false end.

Fixpoint dict_get (d : PyDict) (k : string) : PyVal :=
  match d with
  | [] => PNone
  | (k', v) :: t => if key_is k k' then v else dict_get t k
  end.

Fixpoint dict_set (d : PyDict) (k : string) (v : PyVal) : PyDict :=
  match d with
  | [] => [(PStr k, v)]
  | (k', v') :: t =>
      if key_is k k' then (k', v) :: t else (k', v') :: dict_set t k v
  end.

(** The outcome of [yaml.safe_load(text)]: a value, or a [yaml.YAMLError]
    with its text, which [extract_frontmatter] catches.  (An exception of
    another class from the library is outside this model.) *)
Inductive YamlOutcome : Type :=
| YamlValue (v : PyVal)
| YAMLError (e : string).

Definition YamlParser : Type := string -> YamlOutcome.

(* ================================================================= *)
(** ** The validator's data *)

(** [ValidationIssue]; [level] is the string ["error"] or ["warning"]. *)
Record ValidationIssue : Type := mkIssue {
  level : string;
  field : string;
  message : string
}.

(** [ValidationResult]; [name] and [description] hold whatever the
    frontmatter held ([PNone] for [None]); [issues] are the errors. *)
Record ValidationResult : Type := mkResult {
  valid : bool;
  skill_path : string;
  name : PyVal;
  description : PyVal;
  issues : list ValidationIssue;
  warnings : list ValidationIssue
}.

Definition NAME_MAX_LENGTH : nat := 64.
Definition DESCRIPTION_MAX_LENGTH : nat := 1024.
Definition RESERVED_WORDS : list string := ["anthropic"; "claude"].
Definition ALLOWED_FRONTMATTER_PROPERTIES : list string :=
  ["name"; "description"; "license"; "allowed-tools"; "metadata"].

Definition dquote : string := String (ascii_of_nat 34) "".
Definition squote : string := "'".

(* ================================================================= *)
(** ** The fallback parser *)

Definition _normalize_yaml_value (value : string) : string :=
  let value := Py.strip value in
  if (Py.startswith value dquote && Py.endswith value dquote)
     || (Py.startswith value squote && Py.endswith value squote)
  then Py.slice_1_m1 value
  else value.

(** The truth value of [current_key], which is [None] or a [str]. *)
Definition key_truthy (current_key : option string) : bool :=
  match current_key with
  | None => false
  | Some k => negb (k =? "")
  end.

(** The three variables the loop of [_parse_simple_frontmatter] updates. *)
Record ParserState : Type := mkParserState {
  frontmatter : PyDict;
  current_key : option string;
  current_value_lines : list string
}.

(** [frontmatter[current_key] = _normalize_yaml_value("\n".join(current_value_lines))]
    when [current_key] is set. *)
Definition flush (st : ParserState) : PyDict :=
  match st.(current_key) with
  | Some k =>
      if key_truthy (Some k)
      then dict_set st.(frontmatter) k
             (PStr (_normalize_yaml_value (Py.join_nl st.(current_value_lines))))
      else st.(frontmatter)
  | None => st.(frontmatter)
  end.

(** One turn of the loop over [frontmatter_lines]. *)
Definition parse_line (st : ParserState) (line : string) : ParserState :=
  match Re.key_line_match line with
  | Some (k, v) => mkParserState (flush st) (Some k) [v]
  | None =>
      if key_truthy st.(current_key)
         && (Py.startswith line "  " || Py.startswith line (String Py.tab ""))
      then mkParserState st.(frontmatter) st.(current_key)
             (st.(current_value_lines) ++ [Py.strip line])
      else st
  end.

Definition _parse_simple_frontmatter (frontmatter_lines : list string) : PyDict :=
  flush (fold_left parse_line frontmatter_lines (mkParserState [] None [])).

(* ================================================================= *)
(** ** The metadata extractor *)

Definition MSG_MISSING : string := "Missing YAML frontmatter (file must start with ---)".
Definition MSG_UNCLOSED : string := "Invalid YAML frontmatter (missing closing ---)".
Definition MSG_NOT_MAPPING : string := "Frontmatter must be a YAML mapping".

(** The loop [for i, line in enumerate(lines[1:], start=1)]: the index of the
    first line whose stripped text is the marker; [None] stands for the value
    -1 that [frontmatter_end] keeps when the loop finds none. *)
Fixpoint find_closing (i : nat) (ls : list string) : option nat :=
  match ls with
  | [] => None
  | line :: rest =>
      if Py.strip line =? "---" then Some i else find_closing (S i) rest
  end.

(** [extract_frontmatter(content)]: the tuple
    [(frontmatter_dict, body_content, error_message)]. *)
Definition extract_frontmatter (yaml : option YamlParser) (content : string)
  : option PyDict * string * option string :=
  if negb (Py.startswith (Py.strip content) "---") then
    (None, content, Some MSG_MISSING)
  else
    let lines := Py.split_nl content in
    match find_closing 1 (skipn 1 lines) with
    | None => (None, content, Some MSG_UNCLOSED)
    | Some frontmatter_end =>
        let frontmatter_lines := firstn (frontmatter_end - 1) (skipn 1 lines) in
        let frontmatter_text := Py.join_nl frontmatter_lines in
        let body := Py.join_nl (skipn (frontmatter_end + 1) lines) in
        match yaml with
        | Some safe_load =>
            match safe_load frontmatter_text with
            | YAMLError e => (None, content, Some ("Invalid YAML in frontmatter: " ++ e)%string)
            | YamlValue PNone => (Some [], body, None)
            | YamlValue (PDict d) => (Some d, body, None)
            | YamlValue _ => (None, content, Some MSG_NOT_MAPPING)
            end
        | None => (Some (_parse_simple_frontmatter frontmatter_lines), body, None)
        end
    end.

(* ================================================================= *)
(** ** The rule set *)

Definition issue_error (f m : string) : ValidationIssue := mkIssue "error" f m.
Definition issue_warning (f m : string) : ValidationIssue := mkIssue "warning" f m.

(** Membership of a key in [ALLOWED_FRONTMATTER_PROPERTIES]; a key that is
    not a [str] equals none of them. *)
Definition is_allowed_key (k : PyVal) : bool :=
  match k with
  | PStr s => existsb (String.eqb s) ALLOWED_FRONTMATTER_PROPERTIES
  | _ => false
  end.

(** The keys as [str.join] needs them: it raises on an item that is not a
    [str] (and [sorted] already raises on keys of mixed types). *)
Fixpoint str_items (ks : list PyVal) : Exc (list string) :=
  match ks with
  | [] => Ret []
  | PStr s :: t => r <- str_items t ;; Ret (s :: r)
  | _ :: _ => Raise (TypeError "', '.join(sorted(unexpected_keys))")
  end.

Definition validate_frontmatter_properties (frontmatter : PyDict)
  : Exc (list ValidationIssue) :=
  let issues := [] in
  let unexpected_keys := filter (fun k => negb (is_allowed_key k)) (map fst frontmatter) in
  match unexpected_keys with
  | [] => Ret issues
  | _ =>
      ks <- str_items unexpected_keys ;;
      Ret (issues ++ [issue_error "frontmatter"
        ("Unexpected frontmatter properties: "
         ++ Py.join_comma (Py.sorted (Py.dedup ks)) ++ ". "
         ++ "Allowed: " ++ Py.join_comma (Py.sorted ALLOWED_FRONTMATTER_PROPERTIES))%string])
  end.

Definition validate_name (name : PyVal) : list ValidationIssue :=
  let issues := [] in
  if negb (truthy name) then
    issues ++ [issue_error "name" "Required field 'name' is missing"]
  else
    match name with
    | PStr name =>
        (* Length check *)
        let issues :=
          if (NAME_MAX_LENGTH <? String.length name)%nat then
            issues ++ [issue_error "name"
              ("Field 'name' exceeds " ++ Py.str_of_nat NAME_MAX_LENGTH
               ++ " characters (got " ++ Py.str_of_nat (String.length name) ++ ")")%string]
          else issues in
        (* Format check *)
        let issues :=
          if negb (Re.NAME_PATTERN_match name) then
            if negb (name =? Py.lower name) then
              issues ++ [issue_error "name" "Field 'name' must be lowercase"]
            else if Py.contains " " name then
              issues ++ [issue_error "name" "Field 'name' cannot contain spaces (use hyphens)"]
            else if Py.contains "_" name then
              issues ++ [issue_warning "name"
                "Field 'name' uses underscores (prefer hyphens for consistency)"]
            else if negb (Re.only_name_chars_match name) then
              issues ++ [issue_error "name"
                "Field 'name' must contain only lowercase letters, numbers, and hyphens"]
            else issues
          else issues in
        (* Reserved words check *)
        let issues :=
          fold_left
            (fun issues reserved =>
               if Py.contains reserved (Py.lower name) then
                 issues ++ [issue_error "name"
                   ("Field 'name' cannot contain reserved word '" ++ reserved ++ "'")%string]
               else issues)
            RESERVED_WORDS issues in
        (* XML tag check *)
        let issues :=
          if Py.contains "<" name || Py.contains ">" name then
            issues ++ [issue_error "name" "Field 'name' cannot contain XML tags"]
          else issues in
        issues
    | _ =>
        issues ++ [issue_error "name"
          ("Field 'name' must be a string, got " ++ type_name name)%string]
    end.

Definition trigger_indicators : list string :=
  ["when"; "use this"; "should be used"; "helps with"; "for"].

Definition validate_description (description : PyVal) : list ValidationIssue :=
  let issues := [] in
  if negb (truthy description) then
    issues ++ [issue_error "description" "Required field 'description' is missing"]
  else
    match description with
    | PStr description =>
        (* Empty check *)
        if Py.strip description =? "" then
          issues ++ [issue_error "description" "Field 'description' cannot be empty"]
        else
        (* Length check *)
        let issues :=
          if (DESCRIPTION_MAX_LENGTH <? String.length description)%nat then
            issues ++ [issue_error "description"
              ("Field 'description' exceeds " ++ Py.str_of_nat DESCRIPTION_MAX_LENGTH
               ++ " characters (got " ++ Py.str_of_nat (String.length description) ++ ")")%string]
          else issues in
        (* XML tag check *)
        let issues :=
          if Py.contains "<" description || Py.contains ">" description then
            issues ++ [issue_error "description" "Field 'description' cannot contain XML tags"]
          else issues in
        (* Quality checks (warnings) *)
        let issues :=
          if (String.length description <? 50)%nat then
            issues ++ [issue_warning "description"
              "Field 'description' is quite short - consider adding more detail"]
          else issues in
        (* Check for trigger phrases (best practice) *)
        let has_trigger :=
          existsb (fun indicator => Py.contains indicator (Py.lower description))
                  trigger_indicators in
        let issues :=
          if negb has_trigger then
            issues ++ [issue_warning "description"
              "Description lacks trigger phrases - consider explaining when to use this skill"]
          else issues in
        issues
    | _ =>
        issues ++ [issue_error "description"
          ("Field 'description' must be a string, got " ++ type_name description)%string]
    end.

Definition example_markers : list string :=
  ["## example"; "### example"; "example:"; "examples"; "core tasks"; "workflow"].

Definition validate_body (body : string) : list ValidationIssue :=
  let issues := [] in
  if (body =? "") || (Py.strip body =? "") then
    issues ++ [issue_error "body" "Skill body content is empty"]
  else
    (* Word count check *)
    let word_count := List.length (Py.split_ws body) in
    let issues :=
      if (word_count <? 100)%nat then
        issues ++ [issue_warning "body"
          ("Skill body is quite short (" ++ Py.str_of_nat word_count
           ++ " words) - consider adding more detail")%string]
      else if (5000 <? word_count)%nat then
        issues ++ [issue_warning "body"
          ("Skill body is very long (" ++ Py.str_of_nat word_count
           ++ " words) - consider moving details to references/")%string]
      else issues in
    (* Check for examples or task/workflow guidance *)
    let body_lower := Py.lower body in
    if negb (existsb (fun marker => Py.contains marker body_lower) example_markers) then
      issues ++ [issue_warning "body"
        "No examples or task/workflow guidance found - consider adding short examples or task steps"]
    else issues.

(* ================================================================= *)
(** ** The file and directory entry points *)

(** What [open(...).read()] does: the text, or an exception with its text
    (no such file, a directory, no permission, bytes that are not UTF-8). *)
Inductive ReadOutcome : Type :=
| ReadOk (content : string)
| ReadFailed (e : string).

(** The file system as the validator queries it: [os.path.exists],
    [open(path, "r", encoding="utf-8").read()] and [os.path.isdir]. *)
Record FileSystem : Type := mkFS {
  path_exists : string -> bool;
  read_text : string -> ReadOutcome;
  path_isdir : string -> bool
}.

Definition MSG_NO_YAML : string :=
  "PyYAML not installed; using simplified parser. Install PyYAML for full YAML support.".

(** The result of the three early returns of [validate_skill_file] and of
    the one of [validate_skill_directory]. *)
Definition failed (path : string) (issue : ValidationIssue) : ValidationResult :=
  mkResult false path PNone PNone [issue] [].

(** [description[:100] + "..." if description and len(description) > 100
    else description] *)
Definition display_description (description : PyVal) : Exc PyVal :=
  if truthy description then
    n <- py_len description ;;
    if (100 <? n)%nat then py_slice100_dots description else Ret description
  else Ret description.

Definition is_error (issue : ValidationIssue) : bool := issue.(level) =? "error".

Definition validate_skill_file (yaml : option YamlParser) (fs : FileSystem)
    (file_path : string) : Exc ValidationResult :=
  let issues := [] in
  let warnings := [] in
  (* Check file exists *)
  if negb (fs.(path_exists) file_path) then
    Ret (failed file_path (issue_error "file" ("File not found: " ++ file_path)%string))
  else
  (* Read file *)
  match fs.(read_text) file_path with
  | ReadFailed e =>
      Ret (failed file_path (issue_error "file" ("Failed to read file: " ++ e)%string))
  | ReadOk content =>
      (* Parse frontmatter *)
      let '(frontmatter, body, fm_error) := extract_frontmatter yaml content in
      if match fm_error with Some e => negb (e =? "") | None => false end then
        Ret (failed file_path
               (issue_error "frontmatter" (match fm_error with Some e => e | None => "" end)))
      else
        let warnings :=
          match yaml with
          | None => warnings ++ [issue_warning "frontmatter" MSG_NO_YAML]
          | Some _ => warnings
          end in
        match frontmatter with
        | None => Raise (AttributeError "frontmatter.keys()")
        | Some frontmatter =>
            (* Validate frontmatter properties *)
            fm_property_issues <- validate_frontmatter_properties frontmatter ;;
            (* Validate name *)
            let name := dict_get frontmatter "name" in
            let name_issues := validate_name name in
            (* Validate description *)
            let description := dict_get frontmatter "description" in
            let desc_issues := validate_description description in
            (* Validate body *)
            let body_issues := validate_body (if body =? "" then "" else body) in
            (* Separate errors and warnings *)
            let all_issues := fm_property_issues ++ name_issues ++ desc_issues ++ body_issues in
            let issues := issues ++ filter is_error all_issues in
            let warnings := warnings ++ filter (fun i => negb (is_error i)) all_issues in
            shown <- display_description description ;;
            Ret (mkResult (List.length issues =? 0)%nat file_path name shown issues warnings)
        end
  end.

(** [result.warnings.extend(additional_warnings)] *)
Definition extend_warnings (result : ValidationResult)
    (additional_warnings : list ValidationIssue) : ValidationResult :=
  mkResult result.(valid) result.(skill_path) result.(name) result.(description)
           result.(issues) (result.(warnings) ++ additional_warnings).

(** The body of the [try] block of [validate_skill_directory]; a failed read
    is the [except Exception: pass]. *)
Definition reference_warnings (fs : FileSystem) (dir_path skill_md_path : string)
  : list ValidationIssue :=
  match fs.(read_text) skill_md_path with
  | ReadOk content =>
      map (fun ref => issue_warning "references" ("Referenced file not found: " ++ ref)%string)
          (filter (fun ref => negb (fs.(path_exists) (Py.path_join dir_path ref)))
                  (Re.findall_file_refs content))
  | ReadFailed _ => []
  end.

(** The three [os.path.isdir] queries of the source ([has_references],
    [has_examples], [has_scripts]) are bound to names that are never read;
    they do not appear below. *)
Definition validate_skill_directory (yaml : option YamlParser) (fs : FileSystem)
    (dir_path : string) : Exc ValidationResult :=
  let skill_md_path := Py.path_join dir_path "SKILL.md" in
  if negb (fs.(path_exists) skill_md_path) then
    Ret (failed dir_path
           (issue_error "structure" ("No SKILL.md found in " ++ dir_path)%string))
  else
    result <- validate_skill_file yaml fs skill_md_path ;;
    (* Additional directory checks *)
    let additional_warnings := reference_warnings fs dir_path skill_md_path in
    Ret (extend_warnings result additional_warnings).

(* ================================================================= *)
(** ** Notions used in the statements *)

(** The four groups of issues [validate_name] can emit for a [str]. *)
Definition name_too_long (name : string) : ValidationIssue :=
  issue_error "name"
    ("Field 'name' exceeds 64 characters (got "
     ++ Py.str_of_nat (String.length name) ++ ")")%string.

Definition name_length_issues (name : string) : list ValidationIssue :=
  if (NAME_MAX_LENGTH <? String.length name)%nat then [name_too_long name] else [].

Definition name_reserved_issues (name : string) : list ValidationIssue :=
  flat_map
    (fun reserved =>
       if Py.contains reserved (Py.lower name)
       then [issue_error "name"
               ("Field 'name' cannot contain reserved word '" ++ reserved ++ "'")%string]
       else [])
    RESERVED_WORDS.

Definition name_xml_issues (name : string) : list ValidationIssue :=
  if Py.contains "<" name || Py.contains ">" name
  then [issue_error "name" "Field 'name' cannot contain XML tags"] else [].

Definition name_missing : ValidationIssue :=
  issue_error "name" "Required field 'name' is missing".
Definition name_not_str (type : string) : ValidationIssue :=
  issue_error "name" ("Field 'name' must be a string, got " ++ type)%string.
Definition name_not_lowercase : ValidationIssue :=
  issue_error "name" "Field 'name' must be lowercase".
Definition name_has_spaces : ValidationIssue :=
  issue_error "name" "Field 'name' cannot contain spaces (use hyphens)".
Definition name_has_underscores : ValidationIssue :=
  issue_warning "name" "Field 'name' uses underscores (prefer hyphens for consistency)".
Definition name_bad_chars : ValidationIssue :=
  issue_error "name" "Field 'name' must contain only lowercase letters, numbers, and hyphens".

(** The causes of a format failure, as properties of the characters. *)
Definition is_uppercase (c : ascii) : bool := negb (Ascii.eqb (Py.lower_char c) c).
Definition has_uppercase (name : string) : bool := existsb is_uppercase (Py.chars name).
Definition has_char (c : ascii) (name : string) : bool := existsb (Ascii.eqb c) (Py.chars name).
Definition has_invalid_char (name : string) : bool :=
  existsb (fun c => negb (Re.is_name_char c)) (Py.chars name).
Definition ends_with_newline (name : string) : bool :=
  Py.endswith name (String Py.newline "").

(** An identifier [[a-zA-Z_][a-zA-Z0-9_]*], and a key written with letters,
    digits, underscores and at least one hyphen. *)
Definition is_identifier (key : string) : bool :=
  match Py.chars key with
  | [] => false
  | c :: r => Re.is_ident_start c && forallb Re.is_ident_char r
  end.

Definition is_hyphenated_key (key : string) : bool :=
  forallb (fun c => Re.is_ident_char c || Ascii.eqb c "-") (Py.chars key)
  && existsb (Ascii.eqb "-") (Py.chars key).

(** A line the fallback parser reads as a continuation of the previous value. *)
Definition is_indented (line : string) : bool :=
  Py.startswith line "  " || Py.startswith line (String Py.tab "").

(** A frontmatter entry whose key is an identifier and whose value is a [str]. *)
Definition simple_entry (kv : PyVal * PyVal) : Prop :=
  exists key value, kv = (PStr key, PStr value) /\ is_identifier key = true.

(** The invariant of [ValidationResult]. *)
Definition valid_iff_no_errors (r : ValidationResult) : Prop :=
  r.(valid) = match r.(issues) with [] => true | _ => false end.

(* ================================================================= *)
(** ** Concrete documents, file systems and parser stubs *)

Definition nl : string := String Py.newline "".

Fixpoint repeat_str (s : string) (n : nat) : string :=
  match n with
  | O => ""
  | S k => s ++ repeat_str s k
  end.

(** A file system with one readable file. *)
Definition one_file (path content : string) : FileSystem :=
  mkFS (fun p => p =? path)
       (fun p => if p =? path then ReadOk content else ReadFailed "No such file or directory")
       (fun _ => false).

(** A directory [dir] that holds [SKILL.md] and nothing else. *)
Definition skill_dir (dir content : string) : FileSystem :=
  mkFS (fun p => (p =? dir) || (p =? Py.path_join dir "SKILL.md"))
       (fun p => if p =? Py.path_join dir "SKILL.md" then ReadOk content
                 else ReadFailed "No such file or directory")
       (fun p => p =? dir).

(** A strict parser known on the listed texts only. *)
Fixpoint yaml_table (table : list (string * PyVal)) (text : string) : YamlOutcome :=
  match table with
  | [] => YAMLError "unsupported document"
  | (t, v) :: rest => if t =? text then YamlValue v else yaml_table rest text
  end.

(** Scenario 1 of the specification. *)
Definition block_scenario1 : string :=
  "name: my-skill" ++ nl ++ "description: Use this when doing X.".
Definition body_scenario1 : string := repeat_str "word " 150.
Definition doc_scenario1 : string :=
  "---" ++ nl ++ block_scenario1 ++ nl ++ "---" ++ nl ++ body_scenario1.
Definition mapping_scenario1 : PyDict :=
  [(PStr "name", PStr "my-skill"); (PStr "description", PStr "Use this when doing X.")].

Definition description_short : ValidationIssue :=
  issue_warning "description" "Field 'description' is quite short - consider adding more detail".
Definition body_no_examples : ValidationIssue :=
  issue_warning "body"
    "No examples or task/workflow guidance found - consider adding short examples or task steps".
Definition no_yaml_advisory : ValidationIssue := issue_warning "frontmatter" MSG_NO_YAML.

(** A description that is a number. *)
Definition block_number : string := "name: my-skill" ++ nl ++ "description: 5".
Definition doc_number : string :=
  "---" ++ nl ++ block_number ++ nl ++ "---" ++ nl ++ body_scenario1.
Definition mapping_number : PyDict :=
  [(PStr "name", PStr "my-skill"); (PStr "description", PInt 5)].



(** No frontmatter, and a reference to a file that does not exist. *)
Definition doc_no_frontmatter : string := "No frontmatter here, see `missing.py`".

(** A hyphenated key of the allow-list. *)
Definition block_allowed_tools : string := "allowed-tools: Read".
Definition doc_allowed_tools : string :=
  "---" ++ nl ++ block_allowed_tools ++ nl ++ "---" ++ nl.
Definition mapping_allowed_tools : PyDict := [(PStr "allowed-tools", PStr "Read")].

(* ================================================================= *)
(** ** Auxiliary notions for the proofs *)

(** The two delimiter searches of [extract_frontmatter] on their own: the
    lines between the delimiters and the body, when both searches succeed. *)
Definition delimited (content : string) : option (list string * string) :=
  if Py.startswith (Py.strip content) "---" then
    let lines := Py.split_nl content in
    match find_closing 1 (skipn 1 lines) with
    | Some frontmatter_end =>
        Some (firstn (frontmatter_end - 1) (skipn 1 lines),
              Py.join_nl (skipn (frontmatter_end + 1) lines))
    | None => None
    end
  else None.

(** The parsing step of [extract_frontmatter] on its own. *)
Definition parse_block (yaml : option YamlParser) (content : string)
    (frontmatter_lines : list string) (body : string)
  : option PyDict * string * option string :=
  match yaml with
  | Some safe_load =>
      match safe_load (Py.join_nl frontmatter_lines) with
      | YAMLError e => (None, content, Some ("Invalid YAML in frontmatter: " ++ e)%string)
      | YamlValue PNone => (Some [], body, None)
      | YamlValue (PDict d) => (Some d, body, None)
      | YamlValue _ => (None, content, Some MSG_NOT_MAPPING)
      end
  | None => (Some (_parse_simple_frontmatter frontmatter_lines), body, None)
  end.

(** The loop "Separate errors and warnings" of [validate_skill_file]: the
    lists [issues] and [warnings] it leaves. *)
Definition sorted_issues (yaml : option YamlParser) (all_issues : list ValidationIssue)
  : list ValidationIssue * list ValidationIssue :=
  (filter is_error all_issues,
   match yaml with None => [no_yaml_advisory] | Some _ => [] end
   ++ filter (fun i => negb (is_error i)) all_issues).

(** An entry the fallback parser produced from one of [lines]. *)
Definition entry_from (lines : list string) (kv : PyVal * PyVal) : Prop :=
  exists key value : string,
    kv = (PStr key, PStr value)
    /\ is_identifier key = true
    /\ exists line group2, In line lines /\ Re.key_line_match line = Some (key, group2).

Definition key_from (lines : list string) (current_key : option string) : Prop :=
  forall k, current_key = Some k ->
    is_identifier k = true
    /\ exists line group2, In line lines /\ Re.key_line_match line = Some (k, group2).

(** A frontmatter line [key: value], the pairs whose line is a scalar
    [key: value] line with an identifier key, and the entry the fallback
    parser makes of one. *)
Definition render_line (kv : string * string) : string :=
  fst kv ++ ": " ++ snd kv.

Definition scalar_pair (kv : string * string) : Prop :=
  is_identifier (fst kv) = true /\ has_char Py.newline (snd kv) = false.

Definition fallback_entry (kv : string * string) : PyVal * PyVal :=
  (PStr (fst kv), PStr (_normalize_yaml_value (snd kv))).

(* ================================================================= *)
(** ** Notions for the further properties *)

(** The issues of [validate_description] and [validate_body]. *)
Definition description_missing : ValidationIssue :=
  issue_error "description" "Required field 'description' is missing".
Definition description_not_str (type : string) : ValidationIssue :=
  issue_error "description" ("Field 'description' must be a string, got " ++ type)%string.
Definition description_empty : ValidationIssue :=
  issue_error "description" "Field 'description' cannot be empty".
Definition description_too_long (description : string) : ValidationIssue :=
  issue_error "description"
    ("Field 'description' exceeds 1024 characters (got "
     ++ Py.str_of_nat (String.length description) ++ ")")%string.
Definition description_xml : ValidationIssue :=
  issue_error "description" "Field 'description' cannot contain XML tags".
Definition description_no_trigger : ValidationIssue :=
  issue_warning "description"
    "Description lacks trigger phrases - consider explaining when to use this skill".

Definition body_empty : ValidationIssue := issue_error "body" "Skill body content is empty".
Definition body_short (word_count : nat) : ValidationIssue :=
  issue_warning "body"
    ("Skill body is quite short (" ++ Py.str_of_nat word_count
     ++ " words) - consider adding more detail")%string.
Definition body_long (word_count : nat) : ValidationIssue :=
  issue_warning "body"
    ("Skill body is very long (" ++ Py.str_of_nat word_count
     ++ " words) - consider moving details to references/")%string.

Definition word_count (body : string) : nat := List.length (Py.split_ws body).

Definition has_trigger (description : string) : bool :=
  existsb (fun indicator => Py.contains indicator (Py.lower description)) trigger_indicators.
Definition has_example_marker (body : string) : bool :=
  existsb (fun marker => Py.contains marker (Py.lower body)) example_markers.

Definition reserved_word_error (reserved : string) : ValidationIssue :=
  issue_error "name" ("Field 'name' cannot contain reserved word '" ++ reserved ++ "'")%string.

Definition is_warning (issue : ValidationIssue) : bool := issue.(level) =? "warning".

(** The two levels an issue can have. *)
Definition level_known (i : ValidationIssue) : Prop :=
  i.(level) = "error" \/ i.(level) = "warning".



(** The value of the last pair with key [k], as the fallback parser keeps it. *)
Definition last_value (k : string) (kvs : list (string * string)) : PyVal :=
  fold_left (fun found kv => if fst kv =? k then PStr (_normalize_yaml_value (snd kv)) else found)
            kvs PNone.

Definition backtick : ascii := "`"%char.
Definition no_backtick (l : list ascii) : bool :=
  forallb (fun c => negb (Ascii.eqb c backtick)) l.

(* ================================================================= *)
(** ** The packager, [scripts/package_skill.py]

    [package_skill] prints as it goes, returns the path of the archive or
    [None], and lets an exception of the validator through.  Its result is
    the list of the texts printed, one per [print] call, and how it ended.
    The module is taken with [validate_skill] importable, so
    [validate_skill_directory] is the validator above. *)

Inductive Outcome (A : Type) : Type :=
| Returned (a : A)
| Raised (e : PyExn).

Arguments Returned {A} a.
Arguments Raised {A} e.

(** What the packager needs besides the file system: [str(Path(p).resolve())],
    and the steps after "Validation passed!" (the output directory, the zip
    archive, the two closing prints) as one operation that yields its prints
    and how it ended. *)
Record PackEnv : Type := mkPackEnv {
  resolve : string -> string;
  write_archive : string -> option string -> list string * Outcome (option string)
}.

Definition package_skill (yaml : option YamlParser) (fs : FileSystem) (env : PackEnv)
    (skill_path : string) (output_dir : option string)
  : list string * Outcome (option string) :=
  let skill_path := env.(resolve) skill_path in
  (* Validate skill folder exists *)
  if negb (fs.(path_exists) skill_path) then
    (["Error: Skill folder not found: " ++ skill_path]%string, Returned None)
  else if negb (fs.(path_isdir) skill_path) then
    (["Error: Path is not a directory: " ++ skill_path]%string, Returned None)
  else
  (* Validate SKILL.md exists *)
  let skill_md := Py.path_join skill_path "SKILL.md" in
  if negb (fs.(path_exists) skill_md) then
    (["Error: SKILL.md not found in " ++ skill_path]%string, Returned None)
  else
  (* Run validation before packaging *)
  let out := ["Validating skill..."] in
  match validate_skill_directory yaml fs skill_path with
  | Raise e => (out, Raised e)
  | Ret result =>
      if negb result.(valid) then
        (out ++ ["Validation failed:"]
             ++ map (fun issue => ("  - " ++ issue.(message))%string) result.(issues)
             ++ [(nl ++ "Please fix the validation errors before packaging.")%string],
         Returned None)
      else
        let out := out ++ [("Validation passed!" ++ nl)%string] in
        let '(printed, outcome) := env.(write_archive) skill_path output_dir in
        (out ++ printed, outcome)
  end.

(** A packager environment whose archive step always succeeds. *)
Definition pack_env_ok : PackEnv :=
  mkPackEnv (fun p => ("/work/" ++ p)%string)
            (fun p _ => ([], Returned (Some (p ++ ".skill")%string))).

(** A skill directory that passes validation with the fallback parser. *)
Definition doc_good : string :=
  "---" ++ nl ++ "name: my-skill" ++ nl
  ++ "description: Use this when " ++ repeat_str "x" 40 ++ nl
  ++ "---" ++ nl ++ "Examples and workflow.".

(* ================================================================= *)
(** * Properties *)

(** ** The models on sample inputs *)

Example split_nl_lines : Py.split_nl ("a" ++ nl ++ nl ++ "b")%string = ["a"; ""; "b"].
Proof. reflexivity. Qed.

Example split_ws_words : Py.split_ws "  two  words " = ["two"; "words"].
Proof. reflexivity. Qed.

Example slice_inner : Py.slice_1_m1 "'x'" = "x" /\ Py.slice_1_m1 "'" = "".
Proof. split; reflexivity. Qed.

Example sorted_keys :
  Py.sorted ["name"; "metadata"; "allowed-tools"] = ["allowed-tools"; "metadata"; "name"].
Proof. reflexivity. Qed.

Example str_of_nat_decimal : Py.str_of_nat 150 = "150" /\ Py.str_of_nat 0 = "0".
Proof. split; reflexivity. Qed.

Example lower_mixed_case : Py.lower "My_Skill!" = "my_skill!".
Proof. reflexivity. Qed.

Example path_join_cases :
  Py.path_join "skill" "SKILL.md" = "skill/SKILL.md"
  /\ Py.path_join "skill/" "a.md" = "skill/a.md"
  /\ Py.path_join "skill" "/etc/a.md" = "/etc/a.md"
  /\ Py.path_join "" "a.md" = "a.md".
Proof. repeat split. Qed.

(** [$] accepts one final newline, so [NAME_PATTERN] does too. *)
Example name_pattern_samples :
  map Re.NAME_PATTERN_match
      ["abc" ++ nl; "a" ++ nl; "abc-" ++ nl; "-abc"; "a"; "ab"; "a-";
       "a-b" ++ nl ++ nl; nl; ""]%string
  = [true; true; false; false; true; true; false; false; false; false].
Proof. reflexivity. Qed.

Example only_name_chars_samples :
  map Re.only_name_chars_match
      ["abc" ++ nl; "abc-" ++ nl; "-abc"; "a-"; "a-b" ++ nl ++ nl; nl; ""; "a_b"]%string
  = [true; true; true; true; false; false; false; false].
Proof. reflexivity. Qed.

Example key_line_samples :
  map Re.key_line_match
      ["a: b"; "a : b" ++ nl; "a:" ++ nl ++ nl ++ "b"; "a: b" ++ nl ++ "c";
       "allowed-tools: x"; "a:b: c"; "_x1  :  v  "; "9a: b"; "a:"]%string
  = [Some ("a", "b"); Some ("a", "b"); Some ("a", "b"); None;
     None; Some ("a", "b: c"); Some ("_x1", "v  "); None; Some ("a", "")].
Proof. reflexivity. Qed.

Example findall_samples :
  Re.findall_file_refs "see `a.md` and ``b.py` `c.txt` `.sh` `x.json` `q.md"
  = ["a.md"; "b.py"; "x.json"].
Proof. reflexivity. Qed.

Example parse_simple_sample :
  _parse_simple_frontmatter
    ["name: 'x'"; "description: a"; "  more"; "junk"; "allowed-tools: Read"]
  = [(PStr "name", PStr "x"); (PStr "description", PStr ("a" ++ nl ++ "more")%string)].
Proof. reflexivity. Qed.

Example unexpected_keys_sample :
  validate_frontmatter_properties [(PStr "foo", PStr "x"); (PStr "bar", PNone)]
  = Ret [issue_error "frontmatter"
           "Unexpected frontmatter properties: bar, foo. Allowed: allowed-tools, description, license, metadata, name"].
Proof. reflexivity. Qed.

Example non_str_key_raises :
  validate_frontmatter_properties [(PInt 1, PStr "x")]
  = Raise (TypeError "', '.join(sorted(unexpected_keys))").
Proof. reflexivity. Qed.

(** A final newline passes [$]: such a name matches [NAME_PATTERN], and a
    name with a hyphen before the final newline gets no format issue. *)
Example name_with_final_newline :
  validate_name (PStr ("abc" ++ nl)) = []
  /\ Re.NAME_PATTERN_match ("abc-" ++ nl) = false
  /\ has_invalid_char ("abc-" ++ nl) = true
  /\ validate_name (PStr ("abc-" ++ nl)) = [].
Proof. repeat split. Qed.

Example description_display :
  display_description (PStr (repeat_str "a" 101))
  = Ret (PStr (repeat_str "a" 100 ++ "..."))
  /\ display_description (PStr "short") = Ret (PStr "short")
  /\ display_description (PList []) = Ret (PList [])
  /\ display_description (PBool true) = Raise (TypeError "len(description)").
Proof. repeat split. Qed.

(* ================================================================= *)
(** ** Lists, characters and strings *)

Lemma if_snoc {A : Type} (b : bool) (l : list A) (x : A) :
  (if b then l ++ [x] else l) = l ++ (if b then [x] else []).
Proof. destruct b; [reflexivity | now rewrite app_nil_r]. Qed.

Lemma forallb_negb_existsb {A : Type} (p : A -> bool) (l : list A) :
  forallb p l = negb (existsb (fun x => negb (p x)) l).
Proof.
  induction l as [|x r IH]; [reflexivity|].
  cbn. rewrite IH, negb_orb, negb_involutive. reflexivity.
Qed.

Lemma forallb_rev (p : ascii -> bool) (l : list ascii) : forallb p (rev l) = forallb p l.
Proof.
  induction l as [|x l IH]; [reflexivity|].
  cbn [rev forallb]. rewrite forallb_app, IH. cbn. now rewrite andb_true_r, andb_comm.
Qed.

Lemma chars_nil (s : string) : Py.chars s = [] -> s = "".
Proof. destruct s; [reflexivity | discriminate]. Qed.

Lemma chars_str (l : list ascii) : Py.chars (Py.str l) = l.
Proof. apply list_ascii_of_string_of_list_ascii. Qed.

Lemma str_chars (s : string) : Py.str (Py.chars s) = s.
Proof. apply string_of_list_ascii_of_string. Qed.

Lemma chars_app (a b : string) : Py.chars (a ++ b) = Py.chars a ++ Py.chars b.
Proof.
  unfold Py.chars. induction a as [|c a IH]; [reflexivity|]. cbn. now rewrite IH.
Qed.

Lemma length_pos_nonempty (s : string) : (0 < String.length s)%nat -> s <> "".
Proof. intros H ->. cbn in H. lia. Qed.

(** Runs of characters that satisfy a test. *)
Section Runs.

Variable p : ascii -> bool.

Lemma takewhile_dropwhile (l : list ascii) :
  Py.takewhile p l ++ Py.dropwhile p l = l.
Proof.
  induction l as [|c r IH]; [reflexivity|].
  cbn. destruct (p c); [cbn; now rewrite IH | reflexivity].
Qed.

Lemma takewhile_all (l : list ascii) :
  forallb p (Py.takewhile p l) = true.
Proof.
  induction l as [|c r IH]; [reflexivity|].
  cbn. destruct (p c) eqn:E; [cbn; now rewrite E | reflexivity].
Qed.

Lemma takewhile_app_stop (a : list ascii) (c : ascii) (r : list ascii) :
  forallb p a = true -> p c = false -> Py.takewhile p (a ++ c :: r) = a.
Proof.
  induction a as [|x a IH]; cbn; intros Ha Hc.
  - now rewrite Hc.
  - apply andb_true_iff in Ha as [Hx Ha]. rewrite Hx. now rewrite IH.
Qed.

Lemma dropwhile_app_stop (a : list ascii) (c : ascii) (r : list ascii) :
  forallb p a = true -> p c = false -> Py.dropwhile p (a ++ c :: r) = c :: r.
Proof.
  induction a as [|x a IH]; cbn; intros Ha Hc.
  - now rewrite Hc.
  - apply andb_true_iff in Ha as [Hx Ha]. rewrite Hx. now apply IH.
Qed.

Lemma takewhile_id (l : list ascii) :
  forallb p l = true -> Py.takewhile p l = l /\ Py.dropwhile p l = [].
Proof.
  induction l as [|x l IH]; cbn; intros H; [now split|].
  apply andb_true_iff in H as [Hx Hl]. rewrite Hx.
  destruct (IH Hl) as [-> ->]. now split.
Qed.

Lemma dropwhile_keeps_forallb (q : ascii -> bool) (l : list ascii) :
  forallb p l = true -> forallb p (Py.dropwhile q l) = true.
Proof.
  induction l as [|x l IH]; cbn; intros H; [reflexivity|].
  apply andb_true_iff in H as [Hx Hl].
  destruct (q x); [now apply IH | cbn; now rewrite Hx, Hl].
Qed.

End Runs.

Lemma dropwhile_all (l : list ascii) :
  forallb Py.isspace l = true -> Py.dropwhile Py.isspace l = [].
Proof. intros H. now destruct (takewhile_id _ _ H). Qed.

(** Whitespace on the left does not change what [strip] returns. *)
Lemma dropwhile_snoc_space (l : list ascii) (c : ascii) :
  Py.isspace c = true ->
  Py.dropwhile Py.isspace (l ++ [c])
  = if forallb Py.isspace l then [] else Py.dropwhile Py.isspace l ++ [c].
Proof.
  intros Hc. induction l as [|x l IH]; cbn; [now rewrite Hc|].
  destruct (Py.isspace x); [exact IH | reflexivity].
Qed.

Lemma prefix_singleton_rev (c : ascii) (l : list ascii) :
  String.prefix (String c "") (Py.str (rev l)) = true <-> exists t, l = t ++ [c].
Proof.
  destruct l as [|x r] using rev_ind.
  - cbn. split; [discriminate | intros [t H]; destruct t; discriminate H].
  - rewrite rev_app_distr. cbn [rev app Py.str string_of_list_ascii String.prefix].
    destruct (ascii_dec c x) as [->|Hn].
    + split; [intros _; now exists r | intros _; now destruct (string_of_list_ascii (rev r))].
    + split; [discriminate|]. intros [t H]. apply app_inj_tail in H as [_ H]. congruence.
Qed.

(** Stripping on the right keeps everything up to a character that is not
    whitespace. *)
Lemma rstrip_keeps (a : list ascii) (c : ascii) (b : list ascii) :
  Py.isspace c = false ->
  exists b', rev (Py.dropwhile Py.isspace (rev (a ++ c :: b))) = a ++ c :: b'.
Proof.
  intros Hc. induction b as [|x b [b' IH]] using rev_ind.
  - exists []. rewrite rev_app_distr. cbn [rev app Py.dropwhile]. rewrite Hc.
    cbn [rev]. now rewrite rev_involutive.
  - replace (a ++ c :: b ++ [x]) with ((a ++ c :: b) ++ [x])
      by (now rewrite <- app_assoc).
    rewrite rev_app_distr. cbn [rev app Py.dropwhile].
    destruct (Py.isspace x).
    + now exists b'.
    + exists (b ++ [x]).
      change (x :: rev (a ++ c :: b)) with (rev [x] ++ rev (a ++ c :: b)).
      rewrite <- rev_app_distr, rev_involutive. now rewrite <- app_assoc.
Qed.

Lemma strip_chars_lstrip (l : list ascii) :
  Py.dropwhile Py.isspace (rev (Py.dropwhile Py.isspace (rev (Py.dropwhile Py.isspace l))))
  = Py.dropwhile Py.isspace (rev (Py.dropwhile Py.isspace (rev l))).
Proof.
  induction l as [|c r IH]; [reflexivity|].
  cbn [Py.dropwhile]. destruct (Py.isspace c) eqn:Hc; [|reflexivity].
  rewrite IH. cbn [rev]. rewrite (dropwhile_snoc_space _ c Hc), forallb_rev.
  destruct (forallb Py.isspace r) eqn:Hr.
  - rewrite (dropwhile_all (rev r)) by (now rewrite forallb_rev). reflexivity.
  - rewrite rev_app_distr. cbn [rev app Py.dropwhile]. now rewrite Hc.
Qed.

Lemma strip_lstrip (v : string) : Py.strip (Py.lstrip v) = Py.strip v.
Proof.
  unfold Py.strip, Py.lstrip, Py.rstrip. rewrite !chars_str.
  now rewrite strip_chars_lstrip.
Qed.

(** The first line of a text is a prefix of the text. *)
Lemma first_line_prefix (s : string) :
  exists rest, Py.chars s = Py.chars (hd "" (Py.split_nl s)) ++ rest.
Proof.
  induction s as [|c r [rest IH]]; [now exists []|].
  cbn [Py.split_nl]. destruct (Ascii.eqb c Py.newline).
  - now eexists.
  - exists rest. unfold Py.chars in *.
    destruct (Py.split_nl r) as [|l ls];
      cbn [hd list_ascii_of_string app] in *; now rewrite IH.
Qed.

Lemma strip_keeps_marker (content : string) :
  hd "" (Py.split_nl content) = "---" ->
  Py.startswith (Py.strip content) "---" = true.
Proof.
  intros H. destruct (first_line_prefix content) as [rest E]. rewrite H in E.
  cbn [Py.chars list_ascii_of_string app] in E.
  unfold Py.startswith, Py.strip, Py.lstrip, Py.rstrip.
  fold (Py.chars content). rewrite E.
  destruct (rstrip_keeps ["-"; "-"]%char "-"%char rest eq_refl) as [b' Hb].
  cbn [app] in Hb. rewrite Hb, chars_str. destruct b'; reflexivity.
Qed.

Lemma join_nl_single (v : string) : Py.join_nl [v] = v.
Proof. reflexivity. Qed.

Lemma contains_char (c : ascii) (s : string) :
  Py.contains (String c "") s = has_char c s.
Proof.
  unfold has_char, Py.chars.
  induction s as [|a r IH]; [reflexivity|].
  cbn [Py.contains String.prefix list_ascii_of_string existsb].
  rewrite IH. destruct (ascii_dec c a) as [->|Hn].
  - rewrite Ascii.eqb_refl. destruct r; reflexivity.
  - apply Ascii.eqb_neq in Hn. rewrite Hn. reflexivity.
Qed.

Lemma eqb_lower_has_uppercase (name : string) :
  (name =? Py.lower name) = negb (has_uppercase name).
Proof.
  unfold has_uppercase, Py.chars.
  induction name as [|c r IH]; [reflexivity|].
  cbn [Py.lower String.eqb list_ascii_of_string existsb].
  rewrite IH, negb_orb. unfold is_uppercase.
  rewrite negb_involutive, (Ascii.eqb_sym c). reflexivity.
Qed.

Lemma ends_with_newline_iff (name : string) :
  ends_with_newline name = true <-> exists t, Py.chars name = t ++ [Py.newline].
Proof.
  unfold ends_with_newline, Py.endswith. cbn [Py.chars list_ascii_of_string rev app Py.str string_of_list_ascii].
  apply prefix_singleton_rev.
Qed.

Lemma no_newline_forallb (v : string) :
  has_char Py.newline v = false ->
  forallb (fun c => negb (Ascii.eqb c Py.newline)) (Py.chars v) = true.
Proof.
  unfold has_char. induction (Py.chars v) as [|c l IH]; [reflexivity|].
  cbn [existsb forallb]. intros H. apply orb_false_iff in H as [Hc Hl].
  now rewrite Ascii.eqb_sym, Hc, IH.
Qed.

(* ================================================================= *)
(** ** Values and dictionaries *)

Lemma truthy_str_nonempty (s : string) : s <> "" -> truthy (PStr s) = true.
Proof.
  intros H. simpl. destruct (String.eqb_spec s ""); [contradiction | reflexivity].
Qed.

Lemma dict_set_in (d : PyDict) (k : string) (v : PyVal) (kv : PyVal * PyVal) :
  In kv (dict_set d k v) -> kv = (PStr k, v) \/ In kv d.
Proof.
  induction d as [|[k' v'] t IH]; cbn [dict_set].
  - intros [<-|[]]. now left.
  - destruct (key_is k k') eqn:E.
    + intros [<-|H]; [|right; now right].
      left. destruct k'; try discriminate E. cbn in E.
      apply String.eqb_eq in E. now subst.
    + intros [<-|H]; [right; now left|].
      destruct (IH H) as [->|H']; [now left | right; now right].
Qed.

Lemma dict_set_fresh (d : PyDict) (k : string) (v : PyVal) :
  ~ In (PStr k) (map fst d) -> dict_set d k v = d ++ [(PStr k, v)].
Proof.
  induction d as [|[k' v'] t IH]; intros Hn; [reflexivity|].
  cbn [dict_set]. destruct (key_is k k') eqn:E.
  - exfalso. apply Hn. left. destruct k'; try discriminate E.
    cbn in E. apply String.eqb_eq in E. now subst.
  - cbn [app]. rewrite IH; [reflexivity|]. intros Hin. apply Hn. now right.
Qed.

Lemma dict_get_str_values (fm : PyDict) (k : string) :
  Forall (fun kv => is_str (snd kv) = true) fm ->
  dict_get fm k = PNone \/ exists s, dict_get fm k = PStr s.
Proof.
  induction 1 as [|[k' v] t Hv _ IH]; [now left|].
  cbn [dict_get]. destruct (key_is k k'); [|exact IH].
  cbn in Hv. destruct v; try discriminate Hv. right. now eexists.
Qed.

(* ================================================================= *)
(** ** The regular expressions *)

(** When every character is a name character, the pattern [^[a-z0-9-]+$]
    matches a non-empty string. *)
Lemma name_chars_plus_all (l : list ascii) :
  l <> [] -> forallb Re.is_name_char l = true -> Re.name_chars_plus l = true.
Proof.
  induction l as [|c r IH]; [congruence|].
  intros _ H. cbn [forallb] in H. apply andb_true_iff in H as [Hc Hr].
  cbn [Re.name_chars_plus]. rewrite Hc. cbn [andb].
  destruct r as [|d r']; [reflexivity|].
  rewrite IH by (congruence || assumption). apply orb_true_r.
Qed.

(** When it matches, every character but a final newline is a name character. *)
Lemma name_chars_plus_inv (l : list ascii) :
  Re.name_chars_plus l = true ->
  forallb Re.is_name_char l = true
  \/ exists t, l = t ++ [Py.newline] /\ forallb Re.is_name_char t = true.
Proof.
  induction l as [|c r IH]; [discriminate|].
  cbn [Re.name_chars_plus]. intros H.
  apply andb_true_iff in H as [Hc H]. apply orb_true_iff in H as [H|H].
  - destruct r as [|d [|e r']]; cbn [Re.at_dollar] in H; try discriminate H.
    + left. cbn. now rewrite Hc.
    + apply Ascii.eqb_eq in H. subst d. right. exists [c]. split; [reflexivity|].
      cbn. now rewrite Hc.
  - destruct (IH H) as [Hall | [t [-> Ht]]].
    + left. cbn [forallb]. now rewrite Hc, Hall.
    + right. exists (c :: t). split; [reflexivity|]. cbn [forallb]. now rewrite Hc, Ht.
Qed.

Lemma only_name_chars_no_invalid (name : string) :
  name <> "" -> has_invalid_char name = false -> Re.only_name_chars_match name = true.
Proof.
  intros Hne H. apply name_chars_plus_all.
  - intros E. apply Hne, chars_nil, E.
  - rewrite forallb_negb_existsb. unfold has_invalid_char in H. now rewrite H.
Qed.

Lemma only_name_chars_invalid (name : string) :
  ends_with_newline name = false -> has_invalid_char name = true ->
  Re.only_name_chars_match name = false.
Proof.
  intros Hnl Hinv. destruct (Re.only_name_chars_match name) eqn:E; [|reflexivity].
  apply name_chars_plus_inv in E as [Hall | [t [Ht _]]].
  - rewrite forallb_negb_existsb in Hall. unfold has_invalid_char in Hinv.
    rewrite Hinv in Hall. discriminate Hall.
  - assert (ends_with_newline name = true) by (apply ends_with_newline_iff; now exists t).
    congruence.
Qed.

Lemma is_ident_start_char (c : ascii) :
  Re.is_ident_start c = true -> Re.is_ident_char c = true.
Proof. unfold Re.is_ident_char. intros ->. reflexivity. Qed.

(** What a match of the key pattern says about the line. *)
Lemma key_line_match_some (line key value : string) :
  Re.key_line_match line = Some (key, value) ->
  is_identifier key = true
  /\ exists ws rest : string,
       line = (key ++ ws ++ ":" ++ rest)%string
       /\ forallb Py.isspace (Py.chars ws) = true.
Proof.
  unfold Re.key_line_match.
  destruct (Py.chars line) as [|c l] eqn:El; [discriminate|].
  destruct (Re.is_ident_start c) eqn:Hc; [|discriminate].
  pose proof (takewhile_dropwhile Re.is_ident_char (c :: l)) as Hsplit.
  pose proof (takewhile_all Re.is_ident_char (c :: l)) as Hkey.
  set (k := Py.takewhile Re.is_ident_char (c :: l)) in *.
  set (r := Py.dropwhile Re.is_ident_char (c :: l)) in *.
  pose proof (takewhile_dropwhile Py.isspace r) as Hsplit2.
  pose proof (takewhile_all Py.isspace r) as Hws.
  destruct (Py.dropwhile Py.isspace r) as [|colon after] eqn:Er; [discriminate|].
  destruct (Ascii.eqb_spec colon ":") as [->|]; [|discriminate].
  destruct (Re.at_dollar _); [|discriminate].
  intros H. injection H as Hk _. subst key.
  split.
  - unfold is_identifier. rewrite chars_str. subst k. cbn [Py.takewhile] in *.
    rewrite (is_ident_start_char c Hc) in *. cbn [forallb] in Hkey.
    rewrite Hc. apply andb_true_iff in Hkey as [_ Hkey]. exact Hkey.
  - exists (Py.str (Py.takewhile Py.isspace r)), (Py.str after). split.
    + assert (E : Py.chars line = k ++ Py.takewhile Py.isspace r ++ ":"%char :: after)
        by (now rewrite Hsplit2, Hsplit).
      rewrite <- (str_chars line), E.
      rewrite <- (str_chars (_ ++ _)%string), !chars_app, !chars_str. reflexivity.
    + now rewrite chars_str.
Qed.

(** The part of a hyphenated key before its first hyphen. *)
Lemma hyphenated_split (l : list ascii) :
  forallb (fun c => Re.is_ident_char c || Ascii.eqb c "-") l = true ->
  existsb (Ascii.eqb "-") l = true ->
  exists a b, l = a ++ "-"%char :: b /\ forallb Re.is_ident_char a = true.
Proof.
  induction l as [|c r IH]; [discriminate 2|].
  cbn [forallb existsb]. intros Hall Hex.
  apply andb_true_iff in Hall as [Hc Hall].
  destruct (Ascii.eqb_spec "-"%char c) as [<-|Hn].
  - exists [], r. split; reflexivity.
  - cbn [orb] in Hex. destruct (IH Hall Hex) as [a [b [-> Ha]]].
    exists (c :: a), b. split; [reflexivity|].
    cbn [forallb]. rewrite Ha.
    apply orb_true_iff in Hc as [Hc|Hc]; [now rewrite Hc|].
    apply Ascii.eqb_eq in Hc. congruence.
Qed.

Lemma hyphenated_key_unmatched (key rest : string) :
  is_hyphenated_key key = true ->
  Re.key_line_match (key ++ ":" ++ rest) = None.
Proof.
  unfold is_hyphenated_key. intros H. apply andb_true_iff in H as [Hall Hex].
  destruct (hyphenated_split _ Hall Hex) as [a [b [Hk Ha]]].
  unfold Re.key_line_match. rewrite chars_app, Hk, <- app_assoc. cbn [app].
  destruct a as [|c a]; cbn [app].
  - reflexivity.
  - destruct (Re.is_ident_start c); [|reflexivity].
    change (c :: a ++ "-"%char :: b ++ Py.chars (":" ++ rest))
      with ((c :: a) ++ "-"%char :: b ++ Py.chars (":" ++ rest)).
    rewrite (dropwhile_app_stop Re.is_ident_char (c :: a)) by (assumption || reflexivity).
    reflexivity.
Qed.

Lemma key_line_match_render (k v : string) :
  is_identifier k = true -> has_char Py.newline v = false ->
  Re.key_line_match (render_line (k, v)) = Some (k, Py.lstrip v).
Proof.
  unfold is_identifier, render_line. cbn [fst snd]. intros Hk Hv.
  destruct (Py.chars k) as [|c kr] eqn:Ek; [discriminate Hk|].
  apply andb_true_iff in Hk as [Hc Hkr].
  assert (Hall : forallb Re.is_ident_char (c :: kr) = true)
    by (cbn [forallb]; now rewrite (is_ident_start_char c Hc)).
  unfold Re.key_line_match. rewrite !chars_app, Ek.
  cbn [Py.chars list_ascii_of_string app]. rewrite Hc.
  replace (c :: kr ++ ":"%char :: " "%char :: Py.chars v)
    with ((c :: kr) ++ ":"%char :: " "%char :: Py.chars v) by reflexivity.
  rewrite (takewhile_app_stop Re.is_ident_char (c :: kr) ":"%char _ Hall eq_refl).
  rewrite (dropwhile_app_stop Re.is_ident_char (c :: kr) ":"%char _ Hall eq_refl).
  change (Py.dropwhile Py.isspace (":"%char :: " "%char :: Py.chars v))
    with (":"%char :: " "%char :: Py.chars v).
  cbv iota beta. change (Ascii.eqb ":" ":") with true. cbv iota.
  change (Py.dropwhile Py.isspace (" "%char :: Py.chars v))
    with (Py.dropwhile Py.isspace (Py.chars v)).
  pose proof (dropwhile_keeps_forallb _ Py.isspace _ (no_newline_forallb v Hv)) as Hnl.
  destruct (takewhile_id _ _ Hnl) as [-> ->]. cbn [Re.at_dollar].
  rewrite <- Ek, str_chars. reflexivity.
Qed.

Lemma identifier_truthy (k : string) : is_identifier k = true -> key_truthy (Some k) = true.
Proof. destruct k; [discriminate | reflexivity]. Qed.

(* ================================================================= *)
(** ** The name rule *)

(** Closes a goal whose hypothesis [H] puts an issue with one message among
    issues that all have other messages. *)
Ltac other_issue H :=
  repeat match type of H with
         | In _ (if ?b then _ else _) => destruct b
         | In _ (_ :: _) => destruct H as [H|H]
         | In _ [] => destruct H
         | _ = _ => discriminate H
         end.

Lemma validate_name_shape (name : string) :
  name <> "" ->
  validate_name (PStr name)
  = name_length_issues name
    ++ (if Re.NAME_PATTERN_match name then []
        else if negb (name =? Py.lower name) then [name_not_lowercase]
        else if Py.contains " " name then [name_has_spaces]
        else if Py.contains "_" name then [name_has_underscores]
        else if Re.only_name_chars_match name then [] else [name_bad_chars])
    ++ name_reserved_issues name ++ name_xml_issues name.
Proof.
  intros Hne. unfold validate_name.
  rewrite (truthy_str_nonempty name Hne). cbn [negb].
  unfold name_length_issues, name_reserved_issues, name_xml_issues, RESERVED_WORDS.
  cbn [fold_left flat_map].
  rewrite !if_snoc.
  destruct (Re.NAME_PATTERN_match name);
  destruct (name =? Py.lower name);
  destruct (Py.contains " " name);
  destruct (Py.contains "_" name);
  destruct (Re.only_name_chars_match name);
  cbn [negb]; rewrite ?if_snoc, ?app_nil_r, ?app_nil_l, <- ?app_assoc; reflexivity.
Qed.

(** Claim C7, as amended.  For a non-empty [str] name that fails
    [NAME_PATTERN], [validate_name] emits the length issues, then at most one
    issue of the format diagnosis, then the reserved-word and markup issues.
    The diagnosis is the first cause that applies: an uppercase letter (Error
    "must be lowercase"), a space (Error), an underscore (Warning), a
    character outside [[a-z0-9-]] in a name that does not end in a newline
    (Error); it is empty when no cause applies, as for a leading or trailing
    hyphen.  For ["My_Skill!"] the only issue is the "must be lowercase"
    Error. *)
Theorem C7_format_diagnosis :
  (forall name : string,
     name <> "" -> Re.NAME_PATTERN_match name = false ->
     exists fmt : list ValidationIssue,
       validate_name (PStr name)
       = name_length_issues name ++ fmt ++ name_reserved_issues name ++ name_xml_issues name
       /\ (List.length fmt <= 1)%nat
       /\ (has_uppercase name = true -> fmt = [name_not_lowercase])
       /\ (has_uppercase name = false -> has_char " " name = true -> fmt = [name_has_spaces])
       /\ (has_uppercase name = false -> has_char " " name = false ->
           has_char "_" name = true -> fmt = [name_has_underscores])
       /\ (has_uppercase name = false -> has_char " " name = false ->
           has_char "_" name = false -> has_invalid_char name = true ->
           ends_with_newline name = false -> fmt = [name_bad_chars])
       /\ (has_uppercase name = false -> has_char " " name = false ->
           has_char "_" name = false -> has_invalid_char name = false -> fmt = []))
  /\ validate_name (PStr "My_Skill!") = [name_not_lowercase].
Proof.
  split; [|reflexivity].
  intros name Hne Hpat.
  rewrite (validate_name_shape name Hne), Hpat.
  rewrite eqb_lower_has_uppercase, negb_involutive, !contains_char.
  eexists. split; [reflexivity|].
  destruct (has_uppercase name); [cbn; repeat split; intros; (lia || congruence)|].
  destruct (has_char " " name); [cbn; repeat split; intros; (lia || congruence)|].
  destruct (has_char "_" name); [cbn; repeat split; intros; (lia || congruence)|].
  destruct (has_invalid_char name) eqn:Hinv.
  - repeat split; try (intros; congruence).
    + destruct (Re.only_name_chars_match name); cbn; lia.
    + intros _ _ _ _ Hnl. now rewrite (only_name_chars_invalid name Hnl Hinv).
  - rewrite (only_name_chars_no_invalid name Hne Hinv).
    cbn; repeat split; intros; (lia || congruence).
Qed.

(** Claim C7 at the name ["my skill"]: no uppercase letter, a space. *)
Lemma C7_format_diagnosis_witness :
  exists fmt : list ValidationIssue,
    validate_name (PStr "my skill")
    = name_length_issues "my skill" ++ fmt
      ++ name_reserved_issues "my skill" ++ name_xml_issues "my skill"
    /\ fmt = [name_has_spaces].
Proof.
  destruct (proj1 C7_format_diagnosis "my skill") as [fmt [E [_ [_ [Hs _]]]]];
    [discriminate | reflexivity |].
  exists fmt. split; [exact E | apply Hs; reflexivity].
Defined.

(** Claim C7 as stated fails at ["-abc"]: the name does not match
    [NAME_PATTERN], and [validate_name] emits no issue at all, so the format
    diagnosis emits none rather than exactly one. *)
Lemma C7_counterexample :
  Re.NAME_PATTERN_match "-abc" = false /\ validate_name (PStr "-abc") = [].
Proof. split; reflexivity. Qed.

(** Claim C8.  For every name of 65 characters or more over the alphabet
    [[a-z0-9-]], [validate_name] emits the too-long Error, whether or not the
    name matches the format pattern. *)
Theorem C8_too_long_name (name : string) :
  (65 <= String.length name)%nat ->
  forallb Re.is_name_char (Py.chars name) = true ->
  In (name_too_long name) (validate_name (PStr name)).
Proof.
  intros Hlen _.
  rewrite validate_name_shape by (apply length_pos_nonempty; lia).
  apply in_or_app. left. unfold name_length_issues, NAME_MAX_LENGTH.
  destruct (Nat.ltb_spec 64 (String.length name)); [now left | lia].
Qed.

(** Claim C8 at the name made of 65 letters [a]. *)
Lemma C8_too_long_name_witness :
  In (name_too_long (repeat_str "a" 65)) (validate_name (PStr (repeat_str "a" 65))).
Proof.
  apply (C8_too_long_name (repeat_str "a" 65)); [vm_compute; lia | reflexivity].
Defined.

Lemma name_str_issue_messages (name : string) (i : ValidationIssue) :
  In i (validate_name (PStr name)) ->
  forall type, i <> name_not_str type.
Proof.
  intros Hin type E. subst i.
  destruct (String.eqb_spec name "") as [->|Hne].
  - unfold validate_name in Hin. cbn [truthy String.eqb negb app] in Hin. other_issue Hin.
  - rewrite (validate_name_shape name Hne) in Hin.
    unfold name_length_issues, name_reserved_issues, name_xml_issues, RESERVED_WORDS in Hin.
    cbn [flat_map] in Hin.
    repeat (apply in_app_or in Hin as [Hin|Hin]); other_issue Hin.
Qed.

(** Claim C10.  For a name value that is not a [str], [validate_name]
    returns the single Error "Required field 'name' is missing" when the
    value is falsy and the single Error "must be a string, got <type>" when it
    is truthy; and the type Error is among the issues of [validate_name] only
    for a truthy value that is not a [str]. *)
Theorem C10_falsy_name_is_missing :
  (forall v : PyVal,
     is_str v = false ->
     validate_name v = if truthy v then [name_not_str (type_name v)] else [name_missing])
  /\ (forall (v : PyVal) (type : string),
        In (name_not_str type) (validate_name v) ->
        is_str v = false /\ truthy v = true).
Proof.
  split.
  - intros v Hv. unfold validate_name.
    destruct (truthy v); [|reflexivity].
    destruct v; try discriminate Hv; reflexivity.
  - intros v type Hin.
    destruct v; try (split; [reflexivity|]);
      try (destruct (truthy _) eqn:E; [reflexivity|];
           unfold validate_name in Hin; rewrite E in Hin;
           destruct Hin as [H|[]]; discriminate H).
    exfalso. exact (name_str_issue_messages s _ Hin type eq_refl).
Qed.

(** Claim C10 at [False], [0], [[]] and [7]. *)
Lemma C10_falsy_name_is_missing_witness :
  validate_name (PBool false) = [name_missing]
  /\ validate_name (PInt 0) = [name_missing]
  /\ validate_name (PList []) = [name_missing]
  /\ validate_name (PInt 7) = [name_not_str "int"].
Proof.
  pose proof (proj1 C10_falsy_name_is_missing) as H.
  exact (conj (H (PBool false) eq_refl)
          (conj (H (PInt 0) eq_refl)
             (conj (H (PList []) eq_refl) (H (PInt 7) eq_refl)))).
Defined.

(* ================================================================= *)
(** ** The fallback parser *)

Lemma normalize_lstrip (v : string) :
  _normalize_yaml_value (Py.lstrip v) = _normalize_yaml_value v.
Proof. unfold _normalize_yaml_value. now rewrite strip_lstrip. Qed.

Lemma flush_entries (lines : list string) (st : ParserState) :
  Forall (entry_from lines) st.(frontmatter) ->
  key_from lines st.(current_key) ->
  Forall (entry_from lines) (flush st).
Proof.
  intros Hfm Hkey. unfold flush.
  destruct (current_key st) as [k|] eqn:Ek; [|exact Hfm].
  destruct (key_truthy (Some k)); [|exact Hfm].
  apply Forall_forall. intros kv Hin.
  apply dict_set_in in Hin as [->|Hin].
  - destruct (Hkey k eq_refl) as [Hid Hline].
    eexists _, _. split; [reflexivity|]. split; assumption.
  - rewrite Forall_forall in Hfm. now apply Hfm.
Qed.

Lemma parse_line_entries (lines : list string) (st : ParserState) (line : string) :
  In line lines ->
  Forall (entry_from lines) st.(frontmatter) ->
  key_from lines st.(current_key) ->
  Forall (entry_from lines) (parse_line st line).(frontmatter)
  /\ key_from lines (parse_line st line).(current_key).
Proof.
  intros Hin Hfm Hkey. unfold parse_line.
  destruct (Re.key_line_match line) as [[k v]|] eqn:Em.
  - cbn [frontmatter current_key]. split.
    + now apply flush_entries.
    + intros k' E. injection E as <-. split.
      * now destruct (key_line_match_some _ _ _ Em).
      * now exists line, v.
  - destruct (_ && _); [cbn [frontmatter current_key]|]; now split.
Qed.

Lemma fold_parse_entries (lines ls : list string) (st : ParserState) :
  incl ls lines ->
  Forall (entry_from lines) st.(frontmatter) ->
  key_from lines st.(current_key) ->
  Forall (entry_from lines) (fold_left parse_line ls st).(frontmatter)
  /\ key_from lines (fold_left parse_line ls st).(current_key).
Proof.
  revert st. induction ls as [|l ls IH]; intros st Hincl Hfm Hkey; [now split|].
  cbn [fold_left].
  destruct (parse_line_entries lines st l) as [H1 H2]; try assumption.
  - apply Hincl. now left.
  - apply IH; try assumption. intros x Hx. apply Hincl. now right.
Qed.

Lemma parse_simple_entries (lines : list string) :
  Forall (entry_from lines) (_parse_simple_frontmatter lines).
Proof.
  unfold _parse_simple_frontmatter.
  destruct (fold_parse_entries lines lines (mkParserState [] None [])) as [H1 H2].
  - apply incl_refl.
  - constructor.
  - intros k E. discriminate E.
  - now apply flush_entries.
Qed.

Lemma entry_from_strs (lines : list string) (kv : PyVal * PyVal) :
  entry_from lines kv -> is_str (fst kv) = true /\ is_str (snd kv) = true.
Proof. intros [key [value [-> _]]]. now split. Qed.

Lemma entry_from_simple (lines : list string) (kv : PyVal * PyVal) :
  entry_from lines kv -> simple_entry kv.
Proof. intros [key [value [E [Hid _]]]]. now exists key, value. Qed.

(** A line that is neither a key line nor a continuation leaves the state
    of the loop as it was. *)
Lemma parse_line_ignored (st : ParserState) (line : string) :
  Re.key_line_match line = None -> is_indented line = false ->
  parse_line st line = st.
Proof.
  intros Hm Hi. unfold parse_line. rewrite Hm.
  unfold is_indented in Hi. rewrite Hi, andb_false_r. reflexivity.
Qed.

(** Claim C9.  [_parse_simple_frontmatter] is a total function on lists of
    lines, and every entry of its result has a [str] value and a key that is
    an identifier, taken from a line that matches the key pattern; a line
    matches only if it begins with an identifier, optional whitespace and a
    colon.  A line whose key has a hyphen, such as [allowed-tools: ...], does
    not match, and any line that neither matches nor is indented is dropped:
    the result is the same as without that line. *)
Theorem C9_fallback_parser_keys :
  (forall (lines : list string) (kv : PyVal * PyVal),
     In kv (_parse_simple_frontmatter lines) -> entry_from lines kv)
  /\ (forall line key group2 : string,
        Re.key_line_match line = Some (key, group2) ->
        is_identifier key = true
        /\ exists ws rest : string,
             line = (key ++ ws ++ ":" ++ rest)%string
             /\ forallb Py.isspace (Py.chars ws) = true)
  /\ (forall key rest : string,
        is_hyphenated_key key = true ->
        Re.key_line_match (key ++ ":" ++ rest) = None)
  /\ (forall (before after : list string) (line : string),
        Re.key_line_match line = None -> is_indented line = false ->
        _parse_simple_frontmatter (before ++ line :: after)
        = _parse_simple_frontmatter (before ++ after))
  /\ _parse_simple_frontmatter ["name: x"; "allowed-tools: Read"; "license: MIT"]
     = [(PStr "name", PStr "x"); (PStr "license", PStr "MIT")].
Proof.
  split; [|split; [|split; [|split]]].
  - intros lines kv Hin.
    pose proof (parse_simple_entries lines) as H. rewrite Forall_forall in H. now apply H.
  - exact key_line_match_some.
  - exact hyphenated_key_unmatched.
  - intros before after line Hm Hi. unfold _parse_simple_frontmatter.
    rewrite !fold_left_app. cbn [fold_left].
    now rewrite (parse_line_ignored _ line Hm Hi).
  - reflexivity.
Qed.

(** Claim C9 at the line [allowed-tools: Read]. *)
Lemma C9_fallback_parser_keys_witness :
  Re.key_line_match ("allowed-tools" ++ ":" ++ " Read") = None
  /\ _parse_simple_frontmatter (["name: x"] ++ "allowed-tools: Read" :: ["license: MIT"])
     = _parse_simple_frontmatter (["name: x"] ++ ["license: MIT"]).
Proof.
  destruct C9_fallback_parser_keys as [_ [_ [Hh [Hd _]]]].
  split.
  - apply (Hh "allowed-tools" " Read"). reflexivity.
  - apply (Hd ["name: x"] ["license: MIT"] "allowed-tools: Read"); reflexivity.
Defined.

(** *** Scalar lines *)

Lemma flush_fold_scalar (kvs : list (string * string)) (st : ParserState) :
  Forall scalar_pair kvs ->
  flush (fold_left parse_line (map render_line kvs) st)
  = fold_left (fun d kv => dict_set d (fst kv) (snd (fallback_entry kv))) kvs (flush st).
Proof.
  intros H. revert st. induction H as [|[k v] kvs [Hk Hv] _ IH]; intros st; [reflexivity|].
  cbn [map fold_left]. rewrite IH. f_equal.
  unfold parse_line. cbn [fst snd] in Hk, Hv.
  rewrite (key_line_match_render k v Hk Hv).
  unfold flush at 1. cbn [current_key frontmatter current_value_lines].
  rewrite (identifier_truthy k Hk), join_nl_single, normalize_lstrip. reflexivity.
Qed.

Lemma fold_dict_set_fresh (kvs : list (string * string)) (d : PyDict) :
  NoDup (map fst kvs) ->
  (forall kv, In kv kvs -> ~ In (PStr (fst kv)) (map fst d)) ->
  fold_left (fun d kv => dict_set d (fst kv) (snd (fallback_entry kv))) kvs d
  = d ++ map fallback_entry kvs.
Proof.
  revert d. induction kvs as [|[k v] kvs IH]; intros d Hnd Hfresh.
  - now rewrite app_nil_r.
  - cbn [fold_left map]. inversion Hnd as [|? ? Hk Hnd']; subst.
    rewrite dict_set_fresh by (apply (Hfresh (k, v)); now left).
    rewrite IH; [now rewrite <- app_assoc | assumption |].
    intros [k' v'] Hin. rewrite map_app, in_app_iff. cbn [fst map In].
    intros [H|[H|[]]].
    + apply (Hfresh (k', v')); [now right | exact H].
    + injection H as ->. apply Hk. apply in_map_iff. now exists (k', v').
Qed.

Lemma parse_simple_scalar_lines (kvs : list (string * string)) :
  Forall scalar_pair kvs -> NoDup (map fst kvs) ->
  _parse_simple_frontmatter (map render_line kvs) = map fallback_entry kvs.
Proof.
  intros H Hnd. unfold _parse_simple_frontmatter.
  rewrite (flush_fold_scalar kvs _ H). cbn [flush current_key frontmatter].
  now rewrite fold_dict_set_fresh.
Qed.

(* ================================================================= *)
(** ** The metadata extractor *)


(** What [extract_frontmatter] returns is an error with a non-empty text, or
    a mapping and no error. *)
Lemma extract_frontmatter_cases (yaml : option YamlParser) (content : string) :
  (exists e, extract_frontmatter yaml content = (None, content, Some e) /\ e <> "")
  \/ (exists fm body, extract_frontmatter yaml content = (Some fm, body, None)).
Proof.
  unfold extract_frontmatter.
  destruct (negb _); [left; eexists; split; [reflexivity | discriminate]|].
  destruct (find_closing _ _) as [e|]; [|left; eexists; split; [reflexivity | discriminate]].
  destruct yaml as [safe_load|]; [|right; eexists _, _; reflexivity].
  destruct (safe_load _) as [v|msg].
  - destruct v; try (left; eexists; split; [reflexivity | discriminate]);
      right; eexists _, _; reflexivity.
  - left. eexists. split; [reflexivity | discriminate].
Qed.

Lemma extract_frontmatter_delimited (yaml : option YamlParser) (content : string)
    (frontmatter_lines : list string) (body : string) :
  delimited content = Some (frontmatter_lines, body) ->
  extract_frontmatter yaml content = parse_block yaml content frontmatter_lines body.
Proof.
  unfold delimited, extract_frontmatter, parse_block.
  destruct (Py.startswith _ _); [|discriminate]. cbn [negb].
  destruct (find_closing _ _); [|discriminate].
  intros H. injection H as <- <-. reflexivity.
Qed.


Lemma fallback_mapping_simple (content body : string) (fm : PyDict) :
  extract_frontmatter None content = (Some fm, body, None) -> Forall simple_entry fm.
Proof.
  unfold extract_frontmatter. destruct (negb _); [discriminate|].
  destruct (find_closing _ _); [|discriminate].
  intros H. injection H as <- _.
  eapply Forall_impl; [|apply parse_simple_entries]. apply entry_from_simple.
Qed.

(** The closing delimiter is the first line whose stripped text is the
    marker. *)
Lemma find_closing_first (i : nat) (before after : list string) (closing : string) :
  Forall (fun line => Py.strip line <> "---") before ->
  Py.strip closing = "---" ->
  find_closing i (before ++ closing :: after) = Some (i + List.length before)%nat.
Proof.
  intros Hb Hc. revert i. induction Hb as [|l before Hl _ IH]; intros i; cbn [app find_closing].
  - rewrite Hc. cbn. f_equal. lia.
  - destruct (String.eqb_spec (Py.strip l) "---"); [contradiction|].
    rewrite IH. cbn [List.length]. f_equal. lia.
Qed.


Lemma skipn_past {A : Type} (before after : list A) (x : A) :
  skipn (S (List.length before)) (before ++ x :: after) = after.
Proof. induction before as [|y before IH]; [reflexivity | exact IH]. Qed.

Lemma firstn_before {A : Type} (before rest : list A) :
  firstn (List.length before) (before ++ rest) = before.
Proof. induction before as [|y before IH]; [reflexivity | cbn; now rewrite IH]. Qed.

Lemma delimited_at (content closing : string) (before after : list string) :
  Py.startswith (Py.strip content) "---" = true ->
  skipn 1 (Py.split_nl content) = before ++ closing :: after ->
  Forall (fun line => Py.strip line <> "---") before ->
  Py.strip closing = "---" ->
  delimited content = Some (before, Py.join_nl after).
Proof.
  intros Hs Hl Hb Hc. unfold delimited. rewrite Hs.
  destruct (Py.split_nl content) as [|first rest] eqn:E;
    [destruct before; discriminate Hl|].
  change (skipn 1 (first :: rest)) with rest in *. subst rest.
  rewrite (find_closing_first 1 before after closing Hb Hc).
  replace (1 + List.length before - 1)%nat with (List.length before) by lia.
  replace (1 + List.length before + 1)%nat with (S (S (List.length before))) by lia.
  change (skipn (S (S (List.length before))) (first :: before ++ closing :: after))
    with (skipn (S (List.length before)) (before ++ closing :: after)).
  now rewrite firstn_before, skipn_past.
Qed.




(* ================================================================= *)
(** ** The rules never raise on text *)

Lemma validate_body_or_empty (body : string) :
  validate_body (if body =? "" then "" else body) = validate_body body.
Proof. destruct (String.eqb_spec body ""); [now subst | reflexivity]. Qed.

Lemma str_items_ret (ks : list PyVal) :
  Forall (fun k => is_str k = true) ks -> exists names, str_items ks = Ret names.
Proof.
  induction 1 as [|k ks Hk _ [names IH]]; [now exists []|].
  destruct k; try discriminate Hk. cbn [str_items]. rewrite IH. cbn. now eexists.
Qed.

Lemma properties_ret (fm : PyDict) :
  Forall (fun kv => is_str (fst kv) = true) fm ->
  exists props, validate_frontmatter_properties fm = Ret props.
Proof.
  intros H. unfold validate_frontmatter_properties.
  destruct (filter _ _) as [|k ks] eqn:E; [now eexists|].
  destruct (str_items_ret (k :: ks)) as [names ->]; [|cbn; now eexists].
  rewrite <- E. apply Forall_forall. intros x Hx.
  apply filter_In in Hx as [Hx _]. apply in_map_iff in Hx as [kv [<- Hkv]].
  rewrite Forall_forall in H. now apply H.
Qed.

Lemma display_description_str_or_none (d : PyVal) :
  d = PNone \/ (exists s, d = PStr s) -> exists shown, display_description d = Ret shown.
Proof.
  intros [->|[s ->]]; [now eexists|].
  unfold display_description. destruct (truthy _); [|now eexists].
  cbn [py_len bind]. destruct (Nat.ltb 100 _); cbn [py_slice100_dots]; now eexists.
Qed.

(* ================================================================= *)
(** ** The file entry point, case by case *)

Section FileCases.

Variable yaml : option YamlParser.
Variable fs : FileSystem.
Variable p : string.

Lemma validate_skill_file_missing :
  fs.(path_exists) p = false ->
  validate_skill_file yaml fs p
  = Ret (failed p (issue_error "file" ("File not found: " ++ p))).
Proof. intros H. unfold validate_skill_file. now rewrite H. Qed.

Lemma validate_skill_file_unreadable (e : string) :
  fs.(path_exists) p = true -> fs.(read_text) p = ReadFailed e ->
  validate_skill_file yaml fs p
  = Ret (failed p (issue_error "file" ("Failed to read file: " ++ e))).
Proof. intros H1 H2. unfold validate_skill_file. now rewrite H1, H2. Qed.

Lemma validate_skill_file_no_frontmatter (content e : string) :
  fs.(path_exists) p = true -> fs.(read_text) p = ReadOk content ->
  extract_frontmatter yaml content = (None, content, Some e) -> e <> "" ->
  validate_skill_file yaml fs p = Ret (failed p (issue_error "frontmatter" e)).
Proof.
  intros H1 H2 H3 He. unfold validate_skill_file. rewrite H1, H2, H3. cbn [negb].
  destruct (String.eqb_spec e ""); [contradiction | reflexivity].
Qed.

Lemma validate_skill_file_rules (content body : string) (fm : PyDict) :
  fs.(path_exists) p = true -> fs.(read_text) p = ReadOk content ->
  extract_frontmatter yaml content = (Some fm, body, None) ->
  validate_skill_file yaml fs p
  = (fm_property_issues <- validate_frontmatter_properties fm ;;
     shown <- display_description (dict_get fm "description") ;;
     let all_issues :=
       fm_property_issues ++ validate_name (dict_get fm "name")
       ++ validate_description (dict_get fm "description") ++ validate_body body in
     Ret (mkResult (List.length (fst (sorted_issues yaml all_issues)) =? 0)%nat p
            (dict_get fm "name") shown
            (fst (sorted_issues yaml all_issues)) (snd (sorted_issues yaml all_issues)))).
Proof.
  intros H1 H2 H3. unfold validate_skill_file. rewrite H1, H2, H3. cbn [negb].
  rewrite validate_body_or_empty.
  destruct yaml; reflexivity.
Qed.

(** Every result [validate_skill_file] returns. *)
Lemma validate_skill_file_ret (r : ValidationResult) :
  validate_skill_file yaml fs p = Ret r ->
  (exists i, r = failed p i)
  \/ (exists content fm body fm_property_issues shown,
        fs.(read_text) p = ReadOk content
        /\ extract_frontmatter yaml content = (Some fm, body, None)
        /\ validate_frontmatter_properties fm = Ret fm_property_issues
        /\ let all_issues :=
             fm_property_issues ++ validate_name (dict_get fm "name")
             ++ validate_description (dict_get fm "description") ++ validate_body body in
           r = mkResult (List.length (fst (sorted_issues yaml all_issues)) =? 0)%nat p
                 (dict_get fm "name") shown
                 (fst (sorted_issues yaml all_issues)) (snd (sorted_issues yaml all_issues))).
Proof.
  intros H.
  destruct (fs.(path_exists) p) eqn:H1.
  2:{ rewrite validate_skill_file_missing in H by assumption.
      injection H as <-. left. now eexists. }
  destruct (fs.(read_text) p) as [content|e] eqn:H2.
  2:{ rewrite (validate_skill_file_unreadable e) in H by assumption.
      injection H as <-. left. now eexists. }
  destruct (extract_frontmatter_cases yaml content) as [[e [H3 He]] | [fm [body H3]]].
  - rewrite (validate_skill_file_no_frontmatter content e) in H by assumption.
    injection H as <-. left. now eexists.
  - rewrite (validate_skill_file_rules content body fm) in H by assumption.
    destruct (validate_frontmatter_properties fm) as [props|] eqn:Hp; [|discriminate H].
    cbn [bind] in H.
    destruct (display_description _) as [shown|] eqn:Hd; [|discriminate H].
    cbn [bind] in H. injection H as <-.
    right. exists content, fm, body, props, shown. repeat split; assumption.
Qed.

Lemma valid_iff_no_errors_file (r : ValidationResult) :
  validate_skill_file yaml fs p = Ret r -> valid_iff_no_errors r.
Proof.
  intros H. apply validate_skill_file_ret in H as [[i ->] | H]; [reflexivity|].
  destruct H as [content [fm [body [props [shown [_ [_ [_ ->]]]]]]]].
  unfold valid_iff_no_errors. cbn [valid issues].
  destruct (fst _); reflexivity.
Qed.

End FileCases.

(** With the fallback parser no exception leaves [validate_skill_file]. *)
Lemma validate_skill_file_fallback_returns (fs : FileSystem) (p : string) :
  exists r, validate_skill_file None fs p = Ret r.
Proof.
  destruct (fs.(path_exists) p) eqn:H1.
  2:{ eexists. now apply validate_skill_file_missing. }
  destruct (fs.(read_text) p) as [content|e] eqn:H2.
  2:{ eexists. eapply validate_skill_file_unreadable; eassumption. }
  destruct (extract_frontmatter_cases None content) as [[e [H3 He]] | [fm [body H3]]].
  - eexists. eapply validate_skill_file_no_frontmatter; eassumption.
  - rewrite (validate_skill_file_rules None fs p content body fm) by assumption.
    assert (Hfm : Forall (fun kv => is_str (fst kv) = true /\ is_str (snd kv) = true) fm).
    { unfold extract_frontmatter in H3.
      destruct (negb _); [discriminate H3|].
      destruct (find_closing _ _); [|discriminate H3].
      injection H3 as <- _.
      eapply Forall_impl; [|apply parse_simple_entries]. apply entry_from_strs. }
    destruct (properties_ret fm) as [props ->].
    { eapply Forall_impl; [|exact Hfm]. now intros kv [H _]. }
    destruct (display_description_str_or_none (dict_get fm "description")) as [shown ->].
    { apply dict_get_str_values. eapply Forall_impl; [|exact Hfm]. now intros kv [_ H]. }
    cbn. now eexists.
Qed.

Lemma validate_skill_directory_fallback_returns (fs : FileSystem) (p : string) :
  exists r, validate_skill_directory None fs p = Ret r.
Proof.
  unfold validate_skill_directory. destruct (negb _); [now eexists|].
  destruct (validate_skill_file_fallback_returns fs (Py.path_join p "SKILL.md")) as [r ->].
  cbn. now eexists.
Qed.

(** Claim C6.  Every result that [validate_skill_file] or
    [validate_skill_directory] returns, for every parser, file system and
    path, has [valid] true exactly when [issues] (the errors) is empty; and
    with the fallback parser both functions return a result on every input. *)
Theorem C6_valid_iff_no_errors :
  (forall (yaml : option YamlParser) (fs : FileSystem) (file_path : string)
          (r : ValidationResult),
     validate_skill_file yaml fs file_path = Ret r -> valid_iff_no_errors r)
  /\ (forall (yaml : option YamlParser) (fs : FileSystem) (dir_path : string)
             (r : ValidationResult),
        validate_skill_directory yaml fs dir_path = Ret r -> valid_iff_no_errors r)
  /\ (forall (fs : FileSystem) (path : string),
        (exists r, validate_skill_file None fs path = Ret r)
        /\ (exists r, validate_skill_directory None fs path = Ret r)).
Proof.
  split; [exact valid_iff_no_errors_file | split].
  - intros yaml fs dir_path r. unfold validate_skill_directory.
    destruct (negb _); [intros H; injection H as <-; reflexivity|].
    destruct (validate_skill_file yaml fs _) as [r0|] eqn:E; [|discriminate].
    cbn [bind]. intros H. injection H as <-.
    apply valid_iff_no_errors_file in E. exact E.
  - intros fs path. split.
    + apply validate_skill_file_fallback_returns.
    + apply validate_skill_directory_fallback_returns.
Qed.

(** Claim C6 on a directory whose [SKILL.md] has no frontmatter and names a
    missing file: one error, one appended reference warning. *)
Lemma C6_valid_iff_no_errors_witness :
  exists r,
    validate_skill_directory None (skill_dir "skill" doc_no_frontmatter) "skill" = Ret r
    /\ r.(issues) <> [] /\ r.(warnings) <> [] /\ valid_iff_no_errors r.
Proof.
  eexists. split; [vm_compute; reflexivity|].
  split; [discriminate | split; [discriminate|]].
  apply (proj1 (proj2 C6_valid_iff_no_errors) None
           (skill_dir "skill" doc_no_frontmatter) "skill").
  vm_compute. reflexivity.
Defined.

(* ================================================================= *)
(** ** The directory scanner *)

Lemma reference_warnings_are_warnings (fs : FileSystem) (dir_path skill_md_path : string) :
  Forall (fun w => w.(level) = "warning" /\ w.(field) = "references")
         (reference_warnings fs dir_path skill_md_path).
Proof.
  unfold reference_warnings. destruct (fs.(read_text) skill_md_path); [|constructor].
  apply Forall_forall. intros w Hw. apply in_map_iff in Hw as [ref [<- _]]. now split.
Qed.

(** Claim C5, as amended.  When the directory holds [SKILL.md], the
    reference pass yields only warnings with field "references", and it runs
    on every result [validate_skill_file] returns: the directory result is
    that result with the reference warnings appended to [warnings], [valid]
    and [issues] unchanged.  In particular when frontmatter extraction fails
    the result has [valid] false, [name] and [description] null, the one
    frontmatter Error, and one warning for every referenced file that does
    not exist. *)
Theorem C5_reference_pass_always_runs (yaml : option YamlParser) (fs : FileSystem)
    (dir_path : string) :
  fs.(path_exists) (Py.path_join dir_path "SKILL.md") = true ->
  Forall (fun w => w.(level) = "warning" /\ w.(field) = "references")
         (reference_warnings fs dir_path (Py.path_join dir_path "SKILL.md"))
  /\ (forall r0 : ValidationResult,
        validate_skill_file yaml fs (Py.path_join dir_path "SKILL.md") = Ret r0 ->
        validate_skill_directory yaml fs dir_path
        = Ret (mkResult r0.(valid) r0.(skill_path) r0.(name) r0.(description) r0.(issues)
                 (r0.(warnings)
                  ++ reference_warnings fs dir_path (Py.path_join dir_path "SKILL.md"))))
  /\ (forall content e : string,
        fs.(read_text) (Py.path_join dir_path "SKILL.md") = ReadOk content ->
        extract_frontmatter yaml content = (None, content, Some e) -> e <> "" ->
        validate_skill_directory yaml fs dir_path
        = Ret (mkResult false (Py.path_join dir_path "SKILL.md") PNone PNone
                 [issue_error "frontmatter" e]
                 (map (fun ref => issue_warning "references"
                                    ("Referenced file not found: " ++ ref))
                      (filter (fun ref => negb (fs.(path_exists) (Py.path_join dir_path ref)))
                              (Re.findall_file_refs content))))).
Proof.
  intros Hex. split; [apply reference_warnings_are_warnings | split].
  - intros r0 H. unfold validate_skill_directory. rewrite Hex, H. reflexivity.
  - intros content e Hread Hext He. unfold validate_skill_directory. rewrite Hex. cbn [negb].
    rewrite (validate_skill_file_no_frontmatter yaml fs _ content e) by assumption.
    cbn [bind]. unfold reference_warnings. rewrite Hread. reflexivity.
Qed.

(** Claim C5 (amended) on a [SKILL.md] without frontmatter that names
    [missing.py]. *)
Lemma C5_reference_pass_always_runs_witness :
  validate_skill_directory None (skill_dir "skill" doc_no_frontmatter) "skill"
  = Ret (mkResult false "skill/SKILL.md" PNone PNone
           [issue_error "frontmatter" MSG_MISSING]
           [issue_warning "references" "Referenced file not found: missing.py"]).
Proof.
  exact (proj2 (proj2 (C5_reference_pass_always_runs None
                         (skill_dir "skill" doc_no_frontmatter) "skill" eq_refl))
           doc_no_frontmatter MSG_MISSING eq_refl eq_refl
           (fun E : MSG_MISSING = "" => eq_ind MSG_MISSING
              (fun s => match s with EmptyString => False | String _ _ => True end) I "" E)).
Defined.

(** Claim C5 as stated fails: extraction of this [SKILL.md] fails, and the
    result still carries a reference-check warning. *)
Lemma C5_counterexample :
  extract_frontmatter None doc_no_frontmatter
  = (None, doc_no_frontmatter, Some MSG_MISSING)
  /\ exists r,
       validate_skill_directory None (skill_dir "skill" doc_no_frontmatter) "skill" = Ret r
       /\ r.(valid) = false
       /\ r.(warnings)
          = [issue_warning "references" "Referenced file not found: missing.py"].
Proof.
  split; [reflexivity|]. eexists. split; [vm_compute; reflexivity|]. split; reflexivity.
Qed.

(* ================================================================= *)
(** ** Scenario 1 *)

Lemma read_one_file (path content c : string) :
  (one_file path content).(read_text) path = ReadOk c -> c = content.
Proof.
  cbn [one_file read_text]. rewrite String.eqb_refl. intros H. now injection H.
Qed.

Lemma delimited_scenario1 :
  delimited doc_scenario1
  = Some (["name: my-skill"; "description: Use this when doing X."], body_scenario1).
Proof. vm_compute. reflexivity. Qed.

Lemma validate_body_scenario1 : validate_body body_scenario1 = [body_no_examples].
Proof. vm_compute. reflexivity. Qed.

(** Claim C3 as stated fails: whatever the strict parser returns for the
    block, and also with the fallback parser, no result for the document of
    scenario 1 has [valid] true with zero errors and zero warnings. *)
Lemma C3_counterexample :
  ~ (exists (yaml : option YamlParser) (r : ValidationResult),
       validate_skill_file yaml (one_file "SKILL.md" doc_scenario1) "SKILL.md" = Ret r
       /\ r.(valid) = true /\ r.(issues) = [] /\ r.(warnings) = []).
Proof.
  intros [yaml [r [H [Hv [_ Hw]]]]].
  apply validate_skill_file_ret in H as [[i ->] | H]; [discriminate Hv|].
  destruct H as [content [fm [body [props [shown [Hread [Hext [_ Hr]]]]]]]].
  apply read_one_file in Hread. subst content.
  rewrite (extract_frontmatter_delimited yaml _ _ _ delimited_scenario1) in Hext.
  assert (body = body_scenario1) as ->.
  { unfold parse_block in Hext. destruct yaml as [safe_load|].
    - destruct (safe_load _) as [v|]; [|discriminate Hext].
      destruct v; try discriminate Hext; now injection Hext.
    - now injection Hext. }
  cbv zeta in Hr. subst r. cbn [warnings sorted_issues snd] in Hw.
  rewrite validate_body_scenario1, !filter_app in Hw.
  repeat (apply app_eq_nil in Hw as [_ Hw]). discriminate Hw.
Qed.

(** Claim C3, as amended.  For the document of scenario 1, validation
    returns [valid] true and zero errors, with two warnings (the description
    is shorter than 50 characters; the body has no example or workflow
    marker) when the strict parser reads the block as the mapping of [name]
    and [description], and with the parser advisory before these two when the
    fallback parser is used. *)
Theorem C3_scenario1 (fs : FileSystem) (file_path : string) :
  fs.(path_exists) file_path = true ->
  fs.(read_text) file_path = ReadOk doc_scenario1 ->
  (forall safe_load : YamlParser,
     safe_load block_scenario1 = YamlValue (PDict mapping_scenario1) ->
     validate_skill_file (Some safe_load) fs file_path
     = Ret (mkResult true file_path (PStr "my-skill") (PStr "Use this when doing X.")
              [] [description_short; body_no_examples]))
  /\ validate_skill_file None fs file_path
     = Ret (mkResult true file_path (PStr "my-skill") (PStr "Use this when doing X.")
              [] [no_yaml_advisory; description_short; body_no_examples]).
Proof.
  intros Hex Hread. split.
  - intros safe_load Hy.
    rewrite (validate_skill_file_rules (Some safe_load) fs file_path doc_scenario1
               body_scenario1 mapping_scenario1); try assumption.
    + rewrite validate_body_scenario1. reflexivity.
    + rewrite (extract_frontmatter_delimited _ _ _ _ delimited_scenario1).
      unfold parse_block. change (Py.join_nl _) with block_scenario1. now rewrite Hy.
  - rewrite (validate_skill_file_rules None fs file_path doc_scenario1
               body_scenario1 mapping_scenario1); try assumption.
    + rewrite validate_body_scenario1. reflexivity.
    + now rewrite (extract_frontmatter_delimited _ _ _ _ delimited_scenario1).
Qed.

(** Claim C3 (amended) with a strict parser that knows the block. *)
Lemma C3_scenario1_witness :
  validate_skill_file
    (Some (yaml_table [(block_scenario1, PDict mapping_scenario1)]))
    (one_file "SKILL.md" doc_scenario1) "SKILL.md"
  = Ret (mkResult true "SKILL.md" (PStr "my-skill") (PStr "Use this when doing X.")
           [] [description_short; body_no_examples]).
Proof.
  apply (proj1 (C3_scenario1 (one_file "SKILL.md" doc_scenario1) "SKILL.md"
                  eq_refl eq_refl)).
  vm_compute. reflexivity.
Defined.

(* ================================================================= *)
(** ** A description that is not text *)

Lemma delimited_number :
  delimited doc_number = Some (["name: my-skill"; "description: 5"], body_scenario1).
Proof. vm_compute. reflexivity. Qed.

(** Claim C1 fails on the code.  With a strict parser that reads
    [description: 5] as the number 5, [validate_description] reports the
    value as an Error, but the expression that truncates the description for
    display calls [len] on it: [validate_skill_file] and
    [validate_skill_directory] raise [TypeError] instead of returning a
    result. *)
Theorem C1_number_description_raises (fs : FileSystem) (dir_path : string)
    (safe_load : YamlParser) :
  fs.(path_exists) (Py.path_join dir_path "SKILL.md") = true ->
  fs.(read_text) (Py.path_join dir_path "SKILL.md") = ReadOk doc_number ->
  safe_load block_number = YamlValue (PDict mapping_number) ->
  validate_description (PInt 5)
  = [issue_error "description" "Field 'description' must be a string, got int"]
  /\ validate_skill_file (Some safe_load) fs (Py.path_join dir_path "SKILL.md")
     = Raise (TypeError "len(description)")
  /\ validate_skill_directory (Some safe_load) fs dir_path
     = Raise (TypeError "len(description)").
Proof.
  intros Hex Hread Hy.
  assert (Hfile : validate_skill_file (Some safe_load) fs (Py.path_join dir_path "SKILL.md")
                  = Raise (TypeError "len(description)")).
  { rewrite (validate_skill_file_rules (Some safe_load) fs _ doc_number
               body_scenario1 mapping_number); try assumption.
    - reflexivity.
    - rewrite (extract_frontmatter_delimited _ _ _ _ delimited_number).
      unfold parse_block. change (Py.join_nl _) with block_number. now rewrite Hy. }
  split; [reflexivity | split; [exact Hfile|]].
  unfold validate_skill_directory. rewrite Hex, Hfile. reflexivity.
Qed.

(** Claim C1 at a directory whose [SKILL.md] has [description: 5]. *)
Lemma C1_number_description_raises_witness :
  validate_skill_directory (Some (yaml_table [(block_number, PDict mapping_number)]))
    (skill_dir "skill" doc_number) "skill"
  = Raise (TypeError "len(description)").
Proof.
  apply (C1_number_description_raises (skill_dir "skill" doc_number) "skill"
           (yaml_table [(block_number, PDict mapping_number)]));
    vm_compute; reflexivity.
Defined.

(* ================================================================= *)
(** ** Strict and fallback parsing compared *)

Lemma extract_allowed_tools_fallback :
  extract_frontmatter None doc_allowed_tools = (Some [], "", None).
Proof. reflexivity. Qed.

Lemma extract_allowed_tools_strict (safe_load : YamlParser) :
  safe_load block_allowed_tools = YamlValue (PDict mapping_allowed_tools) ->
  extract_frontmatter (Some safe_load) doc_allowed_tools
  = (Some mapping_allowed_tools, "", None).
Proof.
  intros H.
  rewrite (extract_frontmatter_delimited _ doc_allowed_tools [block_allowed_tools] "" eq_refl).
  unfold parse_block. change (Py.join_nl _) with block_allowed_tools. now rewrite H.
Qed.

(** Claim C2 as stated fails at the scalar line [allowed-tools: Read]: a
    strict parser that reads it as the mapping of [allowed-tools] to [Read]
    does not agree with the fallback parser, whose mapping is empty. *)
Lemma C2_counterexample :
  ~ (forall safe_load : YamlParser,
       safe_load block_allowed_tools = YamlValue (PDict mapping_allowed_tools) ->
       extract_frontmatter (Some safe_load) doc_allowed_tools
       = extract_frontmatter None doc_allowed_tools).
Proof.
  intros H.
  specialize (H (yaml_table [(block_allowed_tools, PDict mapping_allowed_tools)]) eq_refl).
  rewrite extract_allowed_tools_fallback, extract_allowed_tools_strict in H by reflexivity.
  discriminate H.
Qed.

(** Claim C2, as amended.  On lines [key: value] with distinct identifier
    keys and values without a newline, the fallback parser maps each key to
    its value as text, stripped and with one layer of matching quotes removed.
    Every mapping of the fallback parser has identifier keys and [str]
    values, so a strict result with any other key or value differs from it;
    and the two parsers agree on a document exactly when the strict parser
    returns the fallback parser's mapping (or nothing, when that mapping is
    empty). *)
Theorem C2_fallback_reads_scalars_as_text :
  (forall kvs : list (string * string),
     Forall scalar_pair kvs -> NoDup (map fst kvs) ->
     _parse_simple_frontmatter (map render_line kvs) = map fallback_entry kvs)
  /\ (forall (content body : string) (fm : PyDict),
        extract_frontmatter None content = (Some fm, body, None) ->
        Forall simple_entry fm)
  /\ (forall (safe_load : YamlParser) (content body : string) (fm : PyDict),
        extract_frontmatter (Some safe_load) content = (Some fm, body, None) ->
        ~ Forall simple_entry fm ->
        extract_frontmatter (Some safe_load) content <> extract_frontmatter None content)
  /\ (forall (safe_load : YamlParser) (content body : string) (lines : list string),
        delimited content = Some (lines, body) ->
        (extract_frontmatter (Some safe_load) content = extract_frontmatter None content
         <-> safe_load (Py.join_nl lines) = YamlValue (PDict (_parse_simple_frontmatter lines))
             \/ (safe_load (Py.join_nl lines) = YamlValue PNone
                 /\ _parse_simple_frontmatter lines = []))).
Proof.
  split; [exact parse_simple_scalar_lines | split; [exact fallback_mapping_simple | split]].
  - intros safe_load content body fm Hs Hn E. rewrite Hs in E. symmetry in E.
    apply Hn. eapply fallback_mapping_simple. exact E.
  - intros safe_load content body lines Hd.
    rewrite !(extract_frontmatter_delimited _ content lines body Hd).
    unfold parse_block. split.
    + destruct (safe_load _) as [v|e]; [|discriminate].
      destruct v; try discriminate; intros H; injection H as H.
      * right. now split.
      * left. now rewrite H.
    + intros [->|[-> ->]]; reflexivity.
Qed.

(** Claim C2 (amended) at two scalar lines, one of them quoted. *)
Lemma C2_fallback_reads_scalars_as_text_witness :
  _parse_simple_frontmatter
    (map render_line [("name", "my-skill"); ("description", " 'Use this when doing X.' ")])
  = [(PStr "name", PStr "my-skill"); (PStr "description", PStr "Use this when doing X.")].
Proof.
  apply (proj1 C2_fallback_reads_scalars_as_text
           [("name", "my-skill"); ("description", " 'Use this when doing X.' ")]).
  - repeat constructor.
  - repeat constructor; cbn; intuition discriminate.
Defined.

(* ================================================================= *)
(** * Further properties of the rule set *)

(** ** Substrings *)

Lemma prefix_app (n b : string) : String.prefix n (n ++ b) = true.
Proof.
  induction n as [|c n IH]; cbn; [now destruct b|].
  destruct (ascii_dec c c); [exact IH | contradiction].
Qed.

Lemma contains_app_r (n a b : string) :
  Py.contains n b = true -> Py.contains n (a ++ b) = true.
Proof.
  intros H. induction a as [|c a IH]; [exact H|].
  cbn [append Py.contains]. rewrite IH. apply orb_true_r.
Qed.

Lemma contains_here (n b : string) : Py.contains n (n ++ b) = true.
Proof.
  destruct (n ++ b)%string eqn:E; cbn [Py.contains]; rewrite <- E, prefix_app; reflexivity.
Qed.

Lemma contains_middle (n a b : string) : Py.contains n (a ++ n ++ b) = true.
Proof. apply contains_app_r, contains_here. Qed.

Lemma append_empty_r (s : string) : (s ++ "")%string = s.
Proof. induction s as [|c s IH]; cbn; congruence. Qed.

Lemma append_assoc (a b c : string) : ((a ++ b) ++ c)%string = (a ++ b ++ c)%string.
Proof. induction a as [|x a IH]; cbn; congruence. Qed.

Lemma prefix_empty (s : string) : String.prefix "" s = true.
Proof. now destruct s. Qed.

Lemma prefix_app_l (n a b : string) :
  String.prefix n a = true -> String.prefix n (a ++ b) = true.
Proof.
  revert a. induction n as [|c n IH]; intros a H; [apply prefix_empty|].
  destruct a as [|x a]; [discriminate H|]. cbn in H |- *.
  destruct (ascii_dec c x); [now apply IH | discriminate H].
Qed.

Lemma contains_app_l (n a b : string) :
  Py.contains n a = true -> Py.contains n (a ++ b) = true.
Proof.
  induction a as [|c a IH]; cbn [Py.contains append]; intros H.
  - rewrite orb_false_r in H. destruct n; [|discriminate H].
    destruct b; reflexivity.
  - apply orb_true_iff in H as [H|H].
    + pose proof (prefix_app_l n (String c a) b H) as Hp.
      cbn [append] in Hp. now rewrite Hp.
    + rewrite (IH H). apply orb_true_r.
Qed.

Lemma contains_join_comma (k : string) (ks : list string) :
  In k ks -> Py.contains k (Py.join_comma ks) = true.
Proof.
  unfold Py.join_comma. induction ks as [|x xs IH]; [contradiction|].
  intros [->|Hin]; cbn [String.concat].
  - destruct xs; [|apply contains_here].
    rewrite <- (append_empty_r k) at 2. apply contains_here.
  - destruct xs as [|y ys]; [contradiction|].
    apply contains_app_r, contains_app_r, IH, Hin.
Qed.

Lemma insert_sorted_in (k x : string) (ks : list string) :
  In x (Py.insert_sorted k ks) <-> x = k \/ In x ks.
Proof.
  induction ks as [|h t IH]; cbn; [intuition|].
  destruct (k <=? h)%string; cbn; [intuition|]. rewrite IH. intuition.
Qed.

Lemma sorted_in (x : string) (ks : list string) : In x (Py.sorted ks) <-> In x ks.
Proof.
  unfold Py.sorted. induction ks as [|k ks IH]; cbn; [tauto|].
  rewrite insert_sorted_in, IH. intuition.
Qed.

Lemma dedup_in (x : string) (ks : list string) : In x (Py.dedup ks) <-> In x ks.
Proof.
  induction ks as [|k ks IH]; cbn; [tauto|].
  destruct (existsb (String.eqb k) ks) eqn:E.
  - rewrite IH. split; [now right|]. intros [<-|H]; [|exact H].
    apply existsb_exists in E as [y [Hy E]]. apply String.eqb_eq in E. now subst.
  - cbn. rewrite IH. intuition.
Qed.

Lemma str_items_names (ks : list PyVal) (names : list string) :
  str_items ks = Ret names -> ks = map PStr names.
Proof.
  revert names. induction ks as [|k ks IH]; intros names H.
  - cbn in H. injection H as <-. reflexivity.
  - destruct k; try discriminate H. cbn [str_items] in H.
    destruct (str_items ks) as [r|] eqn:E; [|discriminate H].
    cbn in H. injection H as <-. cbn. now rewrite (IH r eq_refl).
Qed.

Lemma filter_nil_forallb {A : Type} (f : A -> bool) (l : list A) :
  filter (fun x => negb (f x)) l = [] <-> forallb f l = true.
Proof.
  induction l as [|x l IH]; cbn; [tauto|].
  destruct (f x); cbn; [exact IH | split; discriminate].
Qed.

(** ** Allowed properties *)

Lemma properties_ret_cases (fm : PyDict) (issues : list ValidationIssue) :
  validate_frontmatter_properties fm = Ret issues ->
  issues = [] \/ exists m : string, issues = [issue_error "frontmatter" m].
Proof.
  unfold validate_frontmatter_properties.
  destruct (filter _ _) as [|k0 ks]; [intros H; injection H as <-; now left|].
  destruct (str_items (k0 :: ks)); [|discriminate].
  cbn [bind app]. intros H. injection H as <-. right. now eexists.
Qed.

Lemma properties_ret_nil (fm : PyDict) :
  validate_frontmatter_properties fm = Ret []
  <-> forallb is_allowed_key (map fst fm) = true.
Proof.
  unfold validate_frontmatter_properties. rewrite <- filter_nil_forallb.
  destruct (filter _ _) as [|k ks]; [tauto|].
  split; [|discriminate].
  destruct (str_items (k :: ks)); cbn; [|discriminate].
  intros H. injection H as H. discriminate H.
Qed.

(** Property X1.  [validate_frontmatter_properties] returns no issue exactly
    when every key of the frontmatter is in [ALLOWED_FRONTMATTER_PROPERTIES]. *)
Theorem properties_no_issue_iff (fm : PyDict) :
  validate_frontmatter_properties fm = Ret []
  <-> forallb is_allowed_key (map fst fm) = true.
Proof. exact (properties_ret_nil fm). Qed.

(** Property X2.  When [validate_frontmatter_properties] returns, it returns
    no issue or a single Error of field "frontmatter", and the message of
    that Error contains every key of the frontmatter that is not allowed. *)
Theorem properties_one_error_names_keys (fm : PyDict) (issues : list ValidationIssue) :
  validate_frontmatter_properties fm = Ret issues ->
  issues = []
  \/ exists m : string,
       issues = [issue_error "frontmatter" m]
       /\ forall k : PyVal,
            In k (map fst fm) -> is_allowed_key k = false ->
            exists key, k = PStr key /\ Py.contains key m = true.
Proof.
  unfold validate_frontmatter_properties.
  destruct (filter _ _) as [|k0 ks] eqn:E; [intros H; injection H as <-; now left|].
  destruct (str_items (k0 :: ks)) as [names|] eqn:En; [|discriminate].
  cbn [bind app]. intros H. injection H as <-. right. eexists. split; [reflexivity|].
  intros k Hin Hk.
  assert (Hf : In k (k0 :: ks)).
  { rewrite <- E. apply filter_In. split; [exact Hin | now rewrite Hk]. }
  rewrite (str_items_names _ _ En) in Hf. apply in_map_iff in Hf as [key [<- Hkey]].
  exists key. split; [reflexivity|].
  apply (contains_app_r key "Unexpected frontmatter properties: ").
  apply contains_app_l, contains_join_comma.
  apply sorted_in, dedup_in, Hkey.
Qed.

Lemma properties_one_error_names_keys_witness :
  exists m : string,
    validate_frontmatter_properties
      [(PStr "name", PStr "x"); (PStr "version", PStr "1"); (PStr "author", PStr "me")]
    = Ret [issue_error "frontmatter" m]
    /\ Py.contains "author" m = true /\ Py.contains "version" m = true.
Proof.
  pose (fm := [(PStr "name", PStr "x"); (PStr "version", PStr "1"); (PStr "author", PStr "me")]).
  destruct (properties_one_error_names_keys fm
              [issue_error "frontmatter"
                 ("Unexpected frontmatter properties: author, version. Allowed: "
                  ++ Py.join_comma (Py.sorted ALLOWED_FRONTMATTER_PROPERTIES))%string]
              eq_refl) as [H | [m [Hm Hk]]]; [discriminate H|].
  exists m. split; [now rewrite <- Hm|]. split.
  - destruct (Hk (PStr "author") (or_intror (or_intror (or_introl eq_refl))) eq_refl)
      as [key [Hkey Hc]].
    injection Hkey as <-. exact Hc.
  - destruct (Hk (PStr "version") (or_intror (or_introl eq_refl)) eq_refl)
      as [key [Hkey Hc]].
    injection Hkey as <-. exact Hc.
Defined.

(** ** The description rule *)

Lemma filter_error_app (a b : list ValidationIssue) :
  filter is_error (a ++ b) = [] <-> filter is_error a = [] /\ filter is_error b = [].
Proof. rewrite filter_app. split; [apply app_eq_nil | intros [-> ->]; reflexivity]. Qed.


Lemma strip_empty : Py.strip "" = "".
Proof. reflexivity. Qed.

Lemma validate_description_shape (description : string) :
  Py.strip description <> "" ->
  validate_description (PStr description)
  = (if (DESCRIPTION_MAX_LENGTH <? String.length description)%nat
     then [description_too_long description] else [])
    ++ (if Py.contains "<" description || Py.contains ">" description
        then [description_xml] else [])
    ++ (if (String.length description <? 50)%nat then [description_short] else [])
    ++ (if has_trigger description then [] else [description_no_trigger]).
Proof.
  intros Hne. unfold validate_description.
  assert (Hd : description <> "") by (intros ->; now apply Hne).
  rewrite (truthy_str_nonempty description Hd). cbn [negb].
  destruct (String.eqb_spec (Py.strip description) ""); [contradiction|].
  fold (has_trigger description).
  rewrite !if_snoc. destruct (has_trigger description); cbn [negb];
    rewrite ?if_snoc, ?app_nil_r, ?app_nil_l, <- ?app_assoc; reflexivity.
Qed.

(** Property X3.  Every value that is not a text with a visible character gets
    exactly one issue, an Error, and no quality warning. *)
Theorem description_without_text_one_error (description : PyVal) :
  (forall s, description = PStr s -> Py.strip s = "") ->
  validate_description description
  = [if negb (truthy description) then description_missing
     else if is_str description then description_empty
     else description_not_str (type_name description)].
Proof.
  intros H. unfold validate_description.
  destruct (truthy description) eqn:Ht; [|reflexivity]. cbn [negb].
  destruct description; try reflexivity.
  rewrite (H s eq_refl). reflexivity.
Qed.

Lemma description_without_text_one_error_witness :
  validate_description PNone = [description_missing]
  /\ validate_description (PStr "   ") = [description_empty]
  /\ validate_description (PList [PStr "a"]) = [description_not_str "list"].
Proof.
  refine (conj (description_without_text_one_error PNone _)
            (conj (description_without_text_one_error (PStr "   ") _)
               (description_without_text_one_error (PList [PStr "a"]) _))).
  - intros s H. discriminate H.
  - intros s H. injection H as <-. reflexivity.
  - intros s H. discriminate H.
Defined.


Lemma description_one_error (description : PyVal) :
  (forall s, description = PStr s -> Py.strip s = "") ->
  exists i, validate_description description = [i] /\ is_error i = true.
Proof.
  intros H. unfold validate_description.
  destruct (truthy description) eqn:Ht; [|eexists; split; reflexivity]. cbn [negb].
  destruct description; try (eexists; split; reflexivity).
  rewrite (H s eq_refl). eexists; split; reflexivity.
Qed.

Lemma description_no_error_inv (description : PyVal) :
  filter is_error (validate_description description) = [] ->
  exists s : string,
    description = PStr s /\ Py.strip s <> ""
    /\ (String.length s <= 1024)%nat
    /\ Py.contains "<" s = false /\ Py.contains ">" s = false.
Proof.
  intros H.
  assert (Hone : (forall s, description = PStr s -> Py.strip s = "") -> False).
  { intros Hb. destruct (description_one_error description Hb) as [i [E Hi]].
    rewrite E in H. cbn in H. rewrite Hi in H. discriminate H. }
  destruct description as [| | | |s| | | | | |];
    try (exfalso; apply Hone; intros ? E; discriminate E).
  destruct (String.eqb_spec (Py.strip s) "") as [E|Hne].
  { exfalso. apply Hone. intros s' E'. now injection E' as <-. }
  exists s. rewrite (validate_description_shape s Hne) in H.
  apply filter_error_app in H as [H1 H]. apply filter_error_app in H as [H2 _].
  unfold DESCRIPTION_MAX_LENGTH in H1.
  destruct (Nat.ltb_spec 1024 (String.length s)); [discriminate H1|].
  destruct (Py.contains "<" s); [discriminate H2|].
  destruct (Py.contains ">" s); [discriminate H2|].
  split; [reflexivity | split; [exact Hne | split; [lia | split; reflexivity]]].
Qed.

(** Property X4.  A description passes without an Error exactly when it is a
    text with a visible character, of at most 1024 characters, without [<] or
    [>]. *)
Theorem description_no_error_iff (description : PyVal) :
  filter is_error (validate_description description) = []
  <-> exists s : string,
        description = PStr s /\ Py.strip s <> ""
        /\ (String.length s <= 1024)%nat
        /\ Py.contains "<" s = false /\ Py.contains ">" s = false.
Proof.
  split; [apply description_no_error_inv|].
  intros [s [-> [Hne [Hlen [Hlt Hgt]]]]].
  rewrite (validate_description_shape s Hne), Hlt, Hgt. unfold DESCRIPTION_MAX_LENGTH.
  destruct (Nat.ltb_spec 1024 (String.length s)); [lia|].
  cbn [orb app]. destruct (_ <? _)%nat; destruct (has_trigger s); reflexivity.
Qed.

(** Property X5.  The quality warnings of a description with text: the "quite
    short" warning exactly below 50 characters, the trigger warning exactly
    when no indicator occurs in the lower-cased text. *)
Theorem description_warnings (s : string) :
  Py.strip s <> "" ->
  filter is_warning (validate_description (PStr s))
  = (if (String.length s <? 50)%nat then [description_short] else [])
    ++ (if has_trigger s then [] else [description_no_trigger]).
Proof.
  intros Hne. rewrite (validate_description_shape s Hne), !filter_app.
  destruct (_ <? String.length s)%nat; destruct (_ || _);
    destruct (String.length s <? 50)%nat; destruct (has_trigger s); reflexivity.
Qed.

Lemma description_warnings_witness :
  filter is_warning (validate_description (PStr "Formats dates."))
  = [description_short].
Proof.
  apply (description_warnings "Formats dates."). discriminate.
Defined.

(** ** Blank text *)

Lemma dropwhile_nil_all (p : ascii -> bool) (l : list ascii) :
  Py.dropwhile p l = [] -> forallb p l = true.
Proof.
  induction l as [|c r IH]; [reflexivity|]. cbn.
  destruct (p c); [exact IH | discriminate].
Qed.

Lemma dropwhile_head (p : ascii -> bool) (l : list ascii) (c : ascii) (r : list ascii) :
  Py.dropwhile p l = c :: r -> p c = false.
Proof.
  induction l as [|x l IH]; [discriminate|]. cbn.
  destruct (p x) eqn:E; [exact IH | intros H; injection H as <- _; exact E].
Qed.

Lemma str_nil (l : list ascii) : Py.str l = "" -> l = [].
Proof. destruct l; [reflexivity | discriminate]. Qed.

(** [strip] returns the empty text exactly on texts of whitespace only. *)
Lemma strip_empty_iff (s : string) :
  Py.strip s = "" <-> forallb Py.isspace (Py.chars s) = true.
Proof.
  unfold Py.strip, Py.lstrip, Py.rstrip. rewrite chars_str. split.
  - intros H. apply str_nil in H.
    destruct (Py.dropwhile Py.isspace (rev (Py.chars s))) as [|c r] eqn:E.
    + apply dropwhile_nil_all in E. now rewrite forallb_rev in E.
    + exfalso. pose proof (dropwhile_head _ _ _ _ E) as Hc.
      apply dropwhile_nil_all in H. cbn [rev] in H.
      rewrite forallb_app in H. apply andb_true_iff in H as [_ H].
      cbn in H. now rewrite Hc in H.
  - intros H. rewrite (dropwhile_all (rev (Py.chars s))) by (now rewrite forallb_rev).
    reflexivity.
Qed.

Lemma split_ws_from_nil (cur l : list ascii) :
  Py.split_ws_from cur l = [] <-> cur = [] /\ forallb Py.isspace l = true.
Proof.
  revert cur. induction l as [|c r IH]; intros cur; cbn.
  - destruct cur; [tauto|]. split; [discriminate | intros [H _]; discriminate H].
  - destruct (Py.isspace c); cbn.
    + destruct cur.
      * rewrite IH. tauto.
      * split; [discriminate | intros [H _]; discriminate H].
    + rewrite IH. split; [intros [H _]; discriminate H | intros [_ H]; discriminate H].
Qed.

(** A text is blank for [strip] exactly when [split] finds no word in it. *)
Lemma strip_empty_no_words (s : string) : Py.strip s = "" <-> word_count s = 0%nat.
Proof.
  rewrite strip_empty_iff. unfold word_count, Py.split_ws.
  rewrite length_zero_iff_nil, split_ws_from_nil. tauto.
Qed.

(** ** The body rule *)

Lemma validate_body_shape (body : string) :
  Py.strip body <> "" ->
  validate_body body
  = (if (word_count body <? 100)%nat then [body_short (word_count body)]
     else if (5000 <? word_count body)%nat then [body_long (word_count body)]
     else [])
    ++ (if has_example_marker body then [] else [body_no_examples]).
Proof.
  intros Hne. unfold validate_body.
  destruct (String.eqb_spec (Py.strip body) ""); [contradiction|].
  destruct (String.eqb_spec body "") as [->|]; [now exfalso; apply Hne|].
  cbn [orb]. fold (word_count body). fold (has_example_marker body).
  destruct (word_count body <? 100)%nat; destruct (5000 <? word_count body)%nat;
    destruct (has_example_marker body); reflexivity.
Qed.

(** Property X6.  The body rule fails a document exactly when the body has no
    word; then its single issue is the "empty" Error. A body with a word gets
    warnings only: "quite short" below 100 words, "very long" above 5000,
    never both, and the missing-examples warning when no marker occurs. *)
Theorem body_fails_iff_no_words (body : string) :
  (word_count body = 0%nat -> validate_body body = [body_empty])
  /\ (word_count body <> 0%nat ->
      filter is_error (validate_body body) = []
      /\ (In (body_short (word_count body)) (validate_body body)
          <-> (word_count body < 100)%nat)
      /\ (In (body_long (word_count body)) (validate_body body)
          <-> (5000 < word_count body)%nat)
      /\ (In body_no_examples (validate_body body) <-> has_example_marker body = false)).
Proof.
  split.
  - intros H. apply strip_empty_no_words in H. unfold validate_body.
    rewrite H. now rewrite orb_true_r.
  - intros H. assert (Hne : Py.strip body <> "") by (now rewrite strip_empty_no_words).
    rewrite (validate_body_shape body Hne).
    destruct (Nat.ltb_spec (word_count body) 100) as [Hs|Hs];
      destruct (Nat.ltb_spec 5000 (word_count body)) as [Hl|Hl];
      destruct (has_example_marker body);
      (split; [reflexivity|]);
      repeat split; cbn [app In]; intros; try lia; try reflexivity; try tauto;
      try (repeat match goal with H : _ \/ _ |- _ => destruct H end;
           try contradiction; discriminate).
Qed.

Lemma body_fails_iff_no_words_witness :
  validate_body (nl ++ "   " ++ nl) = [body_empty]
  /\ filter is_error (validate_body "one word") = [].
Proof.
  split.
  - apply (proj1 (body_fails_iff_no_words (nl ++ "   " ++ nl))). reflexivity.
  - assert (Hw : word_count "one word" <> 0%nat) by (vm_compute; discriminate).
    exact (proj1 (proj2 (body_fails_iff_no_words "one word") Hw)).
Defined.

(** ** Names that pass in silence *)

Lemma name_tail_chars_plus (l : list ascii) :
  Re.name_tail l = true -> Re.name_chars_plus l = true.
Proof.
  induction l as [|c r IH]; [discriminate|]. cbn [Re.name_tail Re.name_chars_plus].
  intros H. apply orb_true_iff in H as [H|H]; apply andb_true_iff in H as [Hc Hr].
  - unfold Re.is_name_char. rewrite Hc, Hr. reflexivity.
  - rewrite Hc, (IH Hr). now rewrite orb_true_r.
Qed.

(** [NAME_PATTERN] accepts only texts that [^[a-z0-9-]+$] accepts. *)
Lemma pattern_only_name_chars (name : string) :
  Re.NAME_PATTERN_match name = true -> Re.only_name_chars_match name = true.
Proof.
  unfold Re.NAME_PATTERN_match, Re.only_name_chars_match.
  destruct (Py.chars name) as [|c r]; [discriminate|]. cbn [Re.name_chars_plus].
  intros H. apply andb_true_iff in H as [Hc H]. unfold Re.is_name_char. rewrite Hc.
  cbn [orb andb]. apply orb_true_iff in H as [H|H].
  - rewrite (name_tail_chars_plus r H). apply orb_true_r.
  - now rewrite H.
Qed.

(** A character test that fails on the name characters and on the newline
    finds nothing in a text that [^[a-z0-9-]+$] accepts. *)
Lemma only_name_chars_excludes (q : ascii -> bool) (name : string) :
  (forall c, q c = true -> Re.is_name_char c = false /\ c <> Py.newline) ->
  Re.only_name_chars_match name = true -> existsb q (Py.chars name) = false.
Proof.
  intros Hq H. apply name_chars_plus_inv in H.
  assert (Hall : forall t, forallb Re.is_name_char t = true -> existsb q t = false).
  { induction t as [|c t IH]; [reflexivity|]. cbn. intros Ht.
    apply andb_true_iff in Ht as [Hc Ht]. rewrite (IH Ht), orb_false_r.
    destruct (q c) eqn:E; [|reflexivity]. destruct (Hq c E). congruence. }
  destruct H as [H | [t [-> H]]]; [now apply Hall|].
  rewrite existsb_app, (Hall t H). cbn. rewrite orb_false_r.
  destruct (q Py.newline) eqn:E; [|reflexivity]. now destruct (Hq _ E).
Qed.

Lemma eqb_char_excluded (x : ascii) :
  Re.is_name_char x = false -> x <> Py.newline ->
  forall c, Ascii.eqb x c = true -> Re.is_name_char c = false /\ c <> Py.newline.
Proof. intros H1 H2 c E. apply Ascii.eqb_eq in E. now subst. Qed.

Lemma uppercase_excluded (c : ascii) :
  is_uppercase c = true -> Re.is_name_char c = false /\ c <> Py.newline.
Proof.
  destruct c as [[] [] [] [] [] [] [] []]; intros H;
    first [discriminate H | split; [reflexivity | discriminate]].
Qed.

Lemma name_reserved_issues_nil (name : string) :
  name_reserved_issues name = []
  <-> Py.contains "anthropic" (Py.lower name) = false
      /\ Py.contains "claude" (Py.lower name) = false.
Proof.
  unfold name_reserved_issues, RESERVED_WORDS. cbn [flat_map].
  destruct (Py.contains "anthropic" _); destruct (Py.contains "claude" _); cbn;
    split; try discriminate; try tauto; intros [? ?]; discriminate.
Qed.

(** Property X7.  [validate_name] returns no issue at all exactly for the texts
    of at most 64 characters that [^[a-z0-9-]+$] accepts and that contain no
    reserved word; a leading or trailing hyphen does not matter. *)
Theorem name_silent_iff (name : PyVal) :
  validate_name name = []
  <-> exists s : string,
        name = PStr s
        /\ (String.length s <= 64)%nat
        /\ Re.only_name_chars_match s = true
        /\ Py.contains "anthropic" (Py.lower s) = false
        /\ Py.contains "claude" (Py.lower s) = false.
Proof.
  split.
  - intros H. destruct name as [| | | |s| | | | | |];
      try (unfold validate_name in H; destruct (truthy _); discriminate H).
    destruct (String.eqb_spec s "") as [->|Hne]; [discriminate H|].
    rewrite (validate_name_shape s Hne) in H.
    apply app_eq_nil in H as [Hlen H]. apply app_eq_nil in H as [Hfmt H].
    apply app_eq_nil in H as [Hres _].
    exists s. split; [reflexivity|]. split; [|split].
    + unfold name_length_issues, NAME_MAX_LENGTH in Hlen.
      destruct (Nat.ltb_spec 64 (String.length s)); [discriminate Hlen | assumption].
    + destruct (Re.NAME_PATTERN_match s) eqn:Hp; [now apply pattern_only_name_chars|].
      destruct (negb _); [discriminate Hfmt|].
      destruct (Py.contains " " s); [discriminate Hfmt|].
      destruct (Py.contains "_" s); [discriminate Hfmt|].
      destruct (Re.only_name_chars_match s); [reflexivity | discriminate Hfmt].
    + now apply name_reserved_issues_nil.
  - intros [s [-> [Hlen [Hm [Ha Hc]]]]].
    assert (Hne : s <> "") by (intros ->; discriminate Hm).
    rewrite (validate_name_shape s Hne).
    assert (Hno : forall x, Re.is_name_char x = false -> x <> Py.newline ->
                            Py.contains (String x "") s = false).
    { intros x H1 H2. rewrite contains_char.
      apply (only_name_chars_excludes _ s (eqb_char_excluded x H1 H2) Hm). }
    rewrite eqb_lower_has_uppercase.
    unfold has_uppercase. rewrite (only_name_chars_excludes _ s uppercase_excluded Hm).
    rewrite !Hno by (reflexivity || discriminate). rewrite Hm.
    unfold name_length_issues, NAME_MAX_LENGTH, name_xml_issues.
    rewrite !Hno by (reflexivity || discriminate).
    destruct (Nat.ltb_spec 64 (String.length s)); [lia|].
    rewrite (proj2 (name_reserved_issues_nil s) (conj Ha Hc)).
    now destruct (Re.NAME_PATTERN_match s).
Qed.

Lemma name_silent_iff_witness :
  validate_name (PStr "--my-skill--") = [].
Proof.
  apply (proj2 (name_silent_iff (PStr "--my-skill--"))).
  exists "--my-skill--". repeat split. cbn. lia.
Defined.

(** ** Reserved words in any letter case *)

Lemma lower_app (a b : string) : Py.lower (a ++ b) = (Py.lower a ++ Py.lower b)%string.
Proof. induction a as [|c a IH]; cbn; congruence. Qed.

(** Property X8.  A name that contains a reserved word in any mix of upper
    and lower case gets the reserved-word Error, which quotes the word in
    lower case. *)
Theorem reserved_word_any_case (before word after : string) :
  In (Py.lower word) RESERVED_WORDS ->
  In (reserved_word_error (Py.lower word))
     (validate_name (PStr (before ++ word ++ after))).
Proof.
  intros Hr.
  assert (Hne : (before ++ word ++ after)%string <> "").
  { destruct word; [cbn in Hr; intuition discriminate|].
    destruct before; discriminate. }
  rewrite (validate_name_shape _ Hne).
  apply in_or_app. right. apply in_or_app. right. apply in_or_app. left.
  unfold name_reserved_issues. apply in_flat_map. exists (Py.lower word).
  split; [exact Hr|].
  rewrite !lower_app, contains_middle. now left.
Qed.

Lemma reserved_word_any_case_witness :
  In (reserved_word_error "claude") (validate_name (PStr "my-ClAuDe-helper")).
Proof.
  apply (reserved_word_any_case "my-" "ClAuDe" "-helper"). cbn. tauto.
Defined.

(** ** Names that pass without an Error *)

Lemma name_no_error_inv (name : PyVal) :
  filter is_error (validate_name name) = []
  -> exists s : string,
        name = PStr s /\ s <> ""
        /\ (String.length s <= 64)%nat
        /\ has_uppercase s = false /\ has_char " " s = false
        /\ (has_char "_" s = true \/ Re.only_name_chars_match s = true)
        /\ name_reserved_issues s = []
        /\ Py.contains "<" s = false /\ Py.contains ">" s = false.
Proof.
  intros H. destruct name as [| | | |s| | | | | |];
    try (unfold validate_name in H; destruct (truthy _); discriminate H).
  destruct (String.eqb_spec s "") as [->|Hne]; [discriminate H|].
  rewrite (validate_name_shape s Hne) in H.
  apply filter_error_app in H as [Hlen H]. apply filter_error_app in H as [Hfmt H].
  apply filter_error_app in H as [Hres Hxml].
  rewrite eqb_lower_has_uppercase, negb_involutive, !contains_char in Hfmt.
  exists s. split; [reflexivity|]. split; [exact Hne|].
  unfold name_length_issues, NAME_MAX_LENGTH in Hlen.
  destruct (Nat.ltb_spec 64 (String.length s)); [discriminate Hlen|].
  split; [assumption|].
  assert (Hr : name_reserved_issues s = []).
  { unfold name_reserved_issues, RESERVED_WORDS in *. cbn [flat_map] in *.
    destruct (Py.contains "anthropic" _); [discriminate Hres|].
    destruct (Py.contains "claude" _); [discriminate Hres | reflexivity]. }
  unfold name_xml_issues in Hxml.
  destruct (Py.contains "<" s); [discriminate Hxml|].
  destruct (Py.contains ">" s); [discriminate Hxml|].
  destruct (Re.NAME_PATTERN_match s) eqn:Hp.
  + pose proof (pattern_only_name_chars s Hp) as Hm.
    unfold has_uppercase, has_char.
    rewrite (only_name_chars_excludes _ s uppercase_excluded Hm).
    rewrite (only_name_chars_excludes _ s
               (eqb_char_excluded " " eq_refl ltac:(discriminate)) Hm).
    repeat split; try reflexivity; try assumption. now right.
  + destruct (has_uppercase s); [discriminate Hfmt|].
    destruct (has_char " " s); [discriminate Hfmt|].
    destruct (has_char "_" s).
    * repeat split; try reflexivity; try assumption. now left.
    * destruct (Re.only_name_chars_match s); [|discriminate Hfmt].
      repeat split; try reflexivity; try assumption. now right.
Qed.

(** Property X9.  A name passes without an Error exactly when it is a non-empty
    text of at most 64 characters, without uppercase letter, space, reserved
    word, [<] or [>], that either contains an underscore or is accepted by
    [^[a-z0-9-]+$]. With an underscore, other characters outside [[a-z0-9-]]
    do not make an Error. *)
Theorem name_no_error_iff (name : PyVal) :
  filter is_error (validate_name name) = []
  <-> exists s : string,
        name = PStr s /\ s <> ""
        /\ (String.length s <= 64)%nat
        /\ has_uppercase s = false /\ has_char " " s = false
        /\ (has_char "_" s = true \/ Re.only_name_chars_match s = true)
        /\ name_reserved_issues s = []
        /\ Py.contains "<" s = false /\ Py.contains ">" s = false.
Proof.
  split; [apply name_no_error_inv|].
  intros [s [-> [Hne [Hlen [Hu [Hsp [Hor [Hr [Hlt Hgt]]]]]]]]].
  rewrite (validate_name_shape s Hne), eqb_lower_has_uppercase, !contains_char.
  rewrite Hu, Hsp, Hr. unfold name_length_issues, NAME_MAX_LENGTH, name_xml_issues.
  rewrite <- !contains_char, Hlt, Hgt.
  destruct (Nat.ltb_spec 64 (String.length s)); [lia|].
  cbn [negb orb app]. rewrite app_nil_r.
  destruct (Re.NAME_PATTERN_match s); [reflexivity|].
  destruct (Py.contains "_" s) eqn:E; [reflexivity|].
  destruct Hor as [Hor|Hor]; [rewrite <- contains_char in Hor; congruence|].
  now rewrite Hor.
Qed.

Lemma name_no_error_iff_witness :
  filter is_error (validate_name (PStr "my_skill!")) = [].
Proof.
  apply (proj2 (name_no_error_iff (PStr "my_skill!"))).
  exists "my_skill!".
  split; [reflexivity | split; [discriminate | split; [cbn; lia|]]].
  repeat split. now left.
Defined.

(* ================================================================= *)
(** * Further properties of the entry points *)

(** ** Errors and warnings are told apart by their level *)

Ltac levels_known :=
  repeat first
    [ apply Forall_nil
    | apply Forall_app; split
    | apply Forall_cons; [first [now left | now right]|]
    | match goal with |- Forall _ (if ?b then _ else _) => destruct b end ].

Lemma validate_name_levels (name : PyVal) : Forall level_known (validate_name name).
Proof.
  destruct name as [| | | |s| | | | | |];
    try (unfold validate_name; destruct (truthy _); solve [levels_known]).
  destruct (String.eqb_spec s "") as [->|Hne].
  - unfold validate_name. cbn [truthy String.eqb negb app]. levels_known.
  - rewrite (validate_name_shape s Hne).
    unfold name_length_issues, name_reserved_issues, name_xml_issues, RESERVED_WORDS.
    cbn [flat_map]. levels_known.
Qed.

Lemma validate_description_levels (description : PyVal) :
  Forall level_known (validate_description description).
Proof.
  destruct description; unfold validate_description;
    destruct (truthy _); solve [levels_known].
Qed.

Lemma validate_body_levels (body : string) : Forall level_known (validate_body body).
Proof.
  destruct (String.eqb_spec (Py.strip body) "") as [E|Hne].
  - unfold validate_body. rewrite E, orb_true_r. levels_known.
  - rewrite (validate_body_shape body Hne). levels_known.
Qed.

Lemma properties_levels (fm : PyDict) (issues : list ValidationIssue) :
  validate_frontmatter_properties fm = Ret issues -> Forall level_known issues.
Proof.
  intros H. apply properties_ret_cases in H as [->|[m ->]]; levels_known.
Qed.

Lemma filter_error_levels (l : list ValidationIssue) :
  Forall (fun i => i.(level) = "error") (filter is_error l).
Proof.
  apply Forall_forall. intros i Hi. apply filter_In in Hi as [_ Hi].
  now apply String.eqb_eq in Hi.
Qed.

Lemma filter_not_error_levels (l : list ValidationIssue) :
  Forall level_known l ->
  Forall (fun i => i.(level) = "warning") (filter (fun i => negb (is_error i)) l).
Proof.
  intros H. apply Forall_forall. intros i Hi. apply filter_In in Hi as [Hin Hi].
  rewrite Forall_forall in H. destruct (H i Hin) as [E|E]; [|exact E].
  unfold is_error in Hi. rewrite E in Hi. discriminate Hi.
Qed.

Lemma result_levels_file (yaml : option YamlParser) (fs : FileSystem) (p : string)
    (r : ValidationResult) :
  validate_skill_file yaml fs p = Ret r ->
  Forall (fun i => i.(level) = "error") r.(issues)
  /\ Forall (fun i => i.(level) = "warning") r.(warnings).
Proof.
  intros H.
  destruct (fs.(path_exists) p) eqn:H1.
  2:{ rewrite validate_skill_file_missing in H by assumption.
      injection H as <-. split; repeat constructor. }
  destruct (fs.(read_text) p) as [content|e] eqn:H2.
  2:{ rewrite (validate_skill_file_unreadable yaml fs p e) in H by assumption.
      injection H as <-. split; repeat constructor. }
  destruct (extract_frontmatter_cases yaml content) as [[e [H3 He]] | [fm [body H3]]].
  - rewrite (validate_skill_file_no_frontmatter yaml fs p content e) in H by assumption.
    injection H as <-. split; repeat constructor.
  - rewrite (validate_skill_file_rules yaml fs p content body fm) in H by assumption.
    destruct (validate_frontmatter_properties fm) as [props|] eqn:Hp; [|discriminate H].
    cbn [bind] in H.
    destruct (display_description _) as [shown|]; [|discriminate H].
    cbn [bind] in H. injection H as <-.
    cbn [issues warnings sorted_issues fst snd]. split; [apply filter_error_levels|].
    apply Forall_app. split; [destruct yaml; repeat constructor|].
    apply filter_not_error_levels.
    repeat (apply Forall_app; split);
      eauto using properties_levels, validate_name_levels,
                  validate_description_levels, validate_body_levels.
Qed.

(** Property X10.  In every result of [validate_skill_file] and
    [validate_skill_directory] the entries of [issues] have level "error" and
    the entries of [warnings] have level "warning". *)
Theorem result_lists_by_level (yaml : option YamlParser) (fs : FileSystem) (path : string)
    (r : ValidationResult) :
  validate_skill_file yaml fs path = Ret r \/ validate_skill_directory yaml fs path = Ret r ->
  Forall (fun i => i.(level) = "error") r.(issues)
  /\ Forall (fun i => i.(level) = "warning") r.(warnings).
Proof.
  intros [H|H]; [now apply (result_levels_file yaml fs path)|].
  unfold validate_skill_directory in H.
  destruct (negb _); [injection H as <-; split; repeat constructor|].
  destruct (validate_skill_file yaml fs _) as [r0|] eqn:E; [|discriminate H].
  cbn [bind] in H. injection H as <-.
  apply result_levels_file in E as [E1 E2]. cbn [extend_warnings issues warnings].
  split; [exact E1|]. apply Forall_app. split; [exact E2|].
  eapply Forall_impl; [|apply reference_warnings_are_warnings]. now intros i [Hi _].
Qed.

Lemma result_lists_by_level_witness :
  exists r,
    validate_skill_directory None (skill_dir "skill" doc_no_frontmatter) "skill" = Ret r
    /\ Forall (fun i => i.(level) = "error") r.(issues)
    /\ Forall (fun i => i.(level) = "warning") r.(warnings).
Proof.
  eexists. split; [vm_compute; reflexivity|].
  apply (result_lists_by_level None (skill_dir "skill" doc_no_frontmatter) "skill").
  right. vm_compute. reflexivity.
Defined.

(** ** What a valid result guarantees *)





(** ** The description shown in the result *)


Lemma append_length (a b : string) :
  String.length (a ++ b) = (String.length a + String.length b)%nat.
Proof. induction a as [|c a IH]; cbn; congruence. Qed.

(** The description of the result is the frontmatter's text when that has at
    most 100 characters, and otherwise its first 100 characters followed by
    three dots; the rule ran on the whole text, so a text of more than 1024
    characters still has its too-long Error in the result. *)




(* ================================================================= *)
(** * Further properties of the extractor *)

(** ** Splitting and joining lines *)

Lemma split_nl_nonempty (s : string) : Py.split_nl s <> [].
Proof.
  induction s as [|c s IH]; cbn; [discriminate|].
  destruct (Ascii.eqb c Py.newline); [discriminate|].
  destruct (Py.split_nl s); discriminate.
Qed.

(** A newline between two texts splits them: the lines of the whole are
    the lines of the first followed by the lines of the second. *)
Lemma split_nl_app (a b : string) :
  Py.split_nl (a ++ String Py.newline b) = Py.split_nl a ++ Py.split_nl b.
Proof.
  induction a as [|c a IH]; cbn [append Py.split_nl].
  - rewrite Ascii.eqb_refl. reflexivity.
  - rewrite IH. destruct (Ascii.eqb c Py.newline); [reflexivity|].
    pose proof (split_nl_nonempty a) as Hne.
    destruct (Py.split_nl a) as [|l ls]; [contradiction | reflexivity].
Qed.

(** Joining the lines of a text gives the text back. *)
Lemma join_split_nl (s : string) : Py.join_nl (Py.split_nl s) = s.
Proof.
  unfold Py.join_nl. induction s as [|c s IH]; [reflexivity|].
  cbn [Py.split_nl]. destruct (Ascii.eqb_spec c Py.newline) as [->|Hn].
  - pose proof (split_nl_nonempty s) as Hne.
    cbn [String.concat]. destruct (Py.split_nl s) as [|l ls] eqn:E; [contradiction|].
    rewrite IH. reflexivity.
  - pose proof (split_nl_nonempty s) as Hne.
    destruct (Py.split_nl s) as [|l ls] eqn:E; [contradiction|].
    cbn [String.concat] in IH |- *. destruct ls; cbn [append]; now rewrite <- IH.
Qed.

(** ** A document put together from a block and a body *)

(** Property X13.  When no line of [block] is the marker once stripped, the
    document made of a marker line, [block], a marker line and [body] is taken
    apart again: the parser gets the lines of [block] (the strict parser gets
    [block] itself), and the body comes back unchanged, marker lines of its
    own included. *)
Theorem extract_frontmatter_round_trip (yaml : option YamlParser) (block body : string) :
  Forall (fun line => Py.strip line <> "---") (Py.split_nl block) ->
  extract_frontmatter yaml ("---" ++ nl ++ block ++ nl ++ "---" ++ nl ++ body)
  = match yaml with
    | None => (Some (_parse_simple_frontmatter (Py.split_nl block)), body, None)
    | Some safe_load =>
        match safe_load block with
        | YAMLError e =>
            (None, ("---" ++ nl ++ block ++ nl ++ "---" ++ nl ++ body)%string,
             Some ("Invalid YAML in frontmatter: " ++ e)%string)
        | YamlValue PNone => (Some [], body, None)
        | YamlValue (PDict d) => (Some d, body, None)
        | YamlValue _ =>
            (None, ("---" ++ nl ++ block ++ nl ++ "---" ++ nl ++ body)%string,
             Some MSG_NOT_MAPPING)
        end
    end.
Proof.
  intros Hb.
  set (content := ("---" ++ nl ++ block ++ nl ++ "---" ++ nl ++ body)%string).
  assert (Hsplit : Py.split_nl content
                   = "---" :: Py.split_nl block ++ "---" :: Py.split_nl body).
  { unfold content, nl.
    change ("---" ++ String Py.newline "" ++ block ++ String Py.newline "" ++ "---"
            ++ String Py.newline "" ++ body)%string
      with ("---" ++ String Py.newline (block ++ String Py.newline
              ("---" ++ String Py.newline body)))%string.
    rewrite !split_nl_app. reflexivity. }
  assert (Hd : delimited content = Some (Py.split_nl block, body)).
  { rewrite <- (join_split_nl body) at 1.
    apply (delimited_at content "---" (Py.split_nl block) (Py.split_nl body)).
    - apply strip_keeps_marker. now rewrite Hsplit.
    - now rewrite Hsplit.
    - exact Hb.
    - reflexivity. }
  rewrite (extract_frontmatter_delimited yaml content _ _ Hd).
  unfold parse_block. rewrite join_split_nl. reflexivity.
Qed.

Lemma extract_frontmatter_round_trip_witness :
  extract_frontmatter None
    ("---" ++ nl ++ "name: x" ++ nl ++ "---" ++ nl ++ ("body" ++ nl ++ "---" ++ nl))
  = (Some [(PStr "name", PStr "x")], ("body" ++ nl ++ "---" ++ nl)%string, None).
Proof.
  apply (extract_frontmatter_round_trip None "name: x" ("body" ++ nl ++ "---" ++ nl)).
  repeat constructor. discriminate.
Defined.

(* ================================================================= *)
(** * Further properties of the fallback parser *)

(** ** Looking a key up *)

Lemma dict_get_set_same (d : PyDict) (k : string) (v : PyVal) :
  dict_get (dict_set d k v) k = v.
Proof.
  induction d as [|[k' v'] t IH]; cbn [dict_set dict_get].
  - cbn. now rewrite String.eqb_refl.
  - destruct (key_is k k') eqn:E; cbn [dict_get]; rewrite E; [reflexivity | exact IH].
Qed.

Lemma dict_get_set_other (d : PyDict) (k k' : string) (v : PyVal) :
  k <> k' -> dict_get (dict_set d k v) k' = dict_get d k'.
Proof.
  intros Hn. induction d as [|[k0 v0] t IH]; cbn [dict_set dict_get].
  - cbn. destruct (String.eqb_spec k k'); [contradiction | reflexivity].
  - destruct (key_is k k0) eqn:E; cbn [dict_get].
    + destruct k0; try discriminate E. cbn in E. apply String.eqb_eq in E. subst s.
      cbn [key_is]. destruct (String.eqb_spec k k'); [contradiction | reflexivity].
    + now rewrite IH.
Qed.

(** Property X14.  On scalar lines with identifier keys, a key repeated on a
    later line takes the later value, and a key that no line has is absent. *)
Theorem fallback_last_line_wins (kvs : list (string * string)) (k : string) :
  Forall scalar_pair kvs ->
  dict_get (_parse_simple_frontmatter (map render_line kvs)) k = last_value k kvs.
Proof.
  intros H. unfold _parse_simple_frontmatter, last_value.
  rewrite (flush_fold_scalar kvs _ H). cbn [flush current_key frontmatter].
  change PNone with (dict_get [] k) at 1.
  generalize (@nil (PyVal * PyVal)). clear H.
  induction kvs as [|[k0 v0] kvs IH]; intros d; [reflexivity|].
  cbn [fold_left fst snd fallback_entry]. rewrite IH. f_equal.
  destruct (String.eqb_spec k0 k) as [->|Hn].
  - apply dict_get_set_same.
  - now apply dict_get_set_other.
Qed.

Lemma fallback_last_line_wins_witness :
  dict_get (_parse_simple_frontmatter
              (map render_line [("name", "first"); ("license", "MIT"); ("name", "'second'")]))
           "name"
  = PStr "second".
Proof.
  apply (fallback_last_line_wins
           [("name", "first"); ("license", "MIT"); ("name", "'second'")] "name").
  repeat constructor.
Defined.

(** ** Continuation lines *)






(* ================================================================= *)
(** * Further properties of the reference pass *)

(** ** The scan for file references *)

Lemma findall_skip (a l : list ascii) :
  no_backtick a = true ->
  Re.findall_from None (a ++ l) = Re.findall_from None l.
Proof.
  induction a as [|c a IH]; [reflexivity|]. cbn [no_backtick forallb app Re.findall_from].
  intros H. apply andb_true_iff in H as [Hc Ha].
  apply negb_true_iff in Hc. unfold backtick in Hc. rewrite Hc. now apply IH.
Qed.

Lemma findall_inside (run a l : list ascii) :
  no_backtick a = true ->
  Re.findall_from (Some run) (a ++ backtick :: l)
  = if Re.is_file_ref (Py.str (rev run ++ a))
    then Py.str (rev run ++ a) :: Re.findall_from None l
    else Re.findall_from (Some []) l.
Proof.
  revert run. induction a as [|c a IH]; intros run H.
  - cbn [app Re.findall_from]. unfold backtick. rewrite Ascii.eqb_refl.
    now rewrite app_nil_r.
  - cbn [no_backtick forallb] in H. apply andb_true_iff in H as [Hc Ha].
    apply negb_true_iff in Hc. unfold backtick in Hc.
    cbn [app Re.findall_from]. rewrite Hc, (IH (c :: run) Ha).
    cbn [rev]. now rewrite <- app_assoc.
Qed.

(** Property X16.  The first reference: after text without a backtick, a file
    reference between two backticks is the first result, and the scan goes on
    after its closing backtick. *)
Theorem findall_first_reference (before ref after : string) :
  no_backtick (Py.chars before) = true ->
  no_backtick (Py.chars ref) = true ->
  Re.is_file_ref ref = true ->
  Re.findall_file_refs (before ++ "`" ++ ref ++ "`" ++ after)
  = ref :: Re.findall_file_refs after.
Proof.
  intros Hb Hr Hf. unfold Re.findall_file_refs.
  rewrite !chars_app. cbn [Py.chars list_ascii_of_string app].
  rewrite (findall_skip _ _ Hb). cbn [Re.findall_from].
  change (Ascii.eqb "`" "`") with true. cbv iota.
  fold (Py.chars ref). fold (Py.chars after). fold backtick.
  rewrite (findall_inside [] (Py.chars ref) (Py.chars after) Hr).
  cbn [rev app]. now rewrite str_chars, Hf.
Qed.

Lemma findall_first_reference_witness :
  Re.findall_file_refs ("See " ++ "`" ++ "scripts/run.py" ++ "`" ++ " and `notes.txt`.")
  = ["scripts/run.py"].
Proof.
  apply (findall_first_reference "See " "scripts/run.py" " and `notes.txt`.");
    reflexivity.
Defined.

(** Every result of the scan stands between two backticks in the text, has
    no backtick itself, and ends in a dot and one of the four extensions
    with at least one character before the dot. *)
Lemma findall_from_sound (l pre : list ascii) (inside : option (list ascii)) (ref : string) :
  match inside with
  | None => True
  | Some run => no_backtick run = true
                /\ exists pre', pre = pre' ++ backtick :: rev run
  end ->
  In ref (Re.findall_from inside l) ->
  Re.is_file_ref ref = true
  /\ no_backtick (Py.chars ref) = true
  /\ exists a b, pre ++ l = a ++ backtick :: Py.chars ref ++ backtick :: b.
Proof.
  revert pre inside. induction l as [|c l IH]; intros pre inside Hinv Hin; [contradiction|].
  cbn [Re.findall_from] in Hin.
  replace (pre ++ c :: l) with ((pre ++ [c]) ++ l) by (now rewrite <- app_assoc).
  destruct (Ascii.eqb_spec c "`") as [->|Hn].
  - destruct inside as [run|].
    + destruct Hinv as [Hrun [pre' ->]].
      destruct (Re.is_file_ref (Py.str (rev run))) eqn:Hf.
      * destruct Hin as [<-|Hin].
        -- split; [exact Hf|]. rewrite chars_str. split.
           ++ unfold no_backtick in *. now rewrite forallb_rev.
           ++ exists pre', l. now rewrite <- !app_assoc.
        -- apply (IH (( pre' ++ backtick :: rev run) ++ ["`"%char]) None I Hin).
      * apply (IH ((pre' ++ backtick :: rev run) ++ ["`"%char]) (Some [])); [|exact Hin].
        split; [reflexivity|]. now exists (pre' ++ backtick :: rev run).
    + apply (IH (pre ++ ["`"%char]) (Some [])); [|exact Hin].
      split; [reflexivity|]. now exists pre.
  - destruct inside as [run|].
    + destruct Hinv as [Hrun [pre' ->]].
      apply (IH ((pre' ++ backtick :: rev run) ++ [c]) (Some (c :: run))); [|exact Hin].
      split.
      * cbn [no_backtick forallb]. unfold no_backtick in Hrun. rewrite Hrun.
        apply Ascii.eqb_neq in Hn. unfold backtick. now rewrite Hn.
      * exists pre'. cbn [rev]. now rewrite <- !app_assoc.
    + apply (IH (pre ++ [c]) None I Hin).
Qed.

(** Property X17.  Every reference the scan returns stands in the text
    between two backticks, contains no backtick itself, and ends in one of
    the four extensions. *)
Theorem findall_results_between_backticks (content ref : string) :
  In ref (Re.findall_file_refs content) ->
  Re.is_file_ref ref = true
  /\ no_backtick (Py.chars ref) = true
  /\ exists before after : string, content = (before ++ "`" ++ ref ++ "`" ++ after)%string.
Proof.
  intros H. destruct (findall_from_sound (Py.chars content) [] None ref I H)
    as [Hf [Hn [a [b E]]]].
  split; [exact Hf | split; [exact Hn|]].
  exists (Py.str a), (Py.str b).
  rewrite <- (str_chars content), <- (str_chars (_ ++ _)%string).
  f_equal. cbn [app] in E. rewrite E, !chars_app, !chars_str. reflexivity.
Qed.

Lemma findall_results_between_backticks_witness :
  Re.is_file_ref "a.md" = true
  /\ no_backtick (Py.chars "a.md") = true
  /\ exists before after : string,
       "x `a.md` y" = (before ++ "`" ++ "a.md" ++ "`" ++ after)%string.
Proof.
  apply (findall_results_between_backticks "x `a.md` y" "a.md"). now left.
Defined.

(** ** The directory result when nothing is missing *)

Lemma extend_warnings_nil (r : ValidationResult) : extend_warnings r [] = r.
Proof. destruct r. unfold extend_warnings. cbn. now rewrite app_nil_r. Qed.

(** Property X18.  When [SKILL.md] is there and every file reference found
    in its text exists, the directory entry point returns what the file entry
    point returns on [SKILL.md]; so it does when the file cannot be read. *)
Theorem directory_result_is_file_result (yaml : option YamlParser) (fs : FileSystem)
    (dir_path : string) :
  fs.(path_exists) (Py.path_join dir_path "SKILL.md") = true ->
  (forall content ref,
     fs.(read_text) (Py.path_join dir_path "SKILL.md") = ReadOk content ->
     In ref (Re.findall_file_refs content) ->
     fs.(path_exists) (Py.path_join dir_path ref) = true) ->
  validate_skill_directory yaml fs dir_path
  = validate_skill_file yaml fs (Py.path_join dir_path "SKILL.md").
Proof.
  intros Hex Hrefs. unfold validate_skill_directory. rewrite Hex. cbn [negb].
  destruct (validate_skill_file yaml fs _) as [r|e]; [|reflexivity]. cbn [bind].
  assert (Hw : reference_warnings fs dir_path (Py.path_join dir_path "SKILL.md") = []).
  { unfold reference_warnings.
    destruct (fs.(read_text) _) as [content|] eqn:E; [|reflexivity].
    assert (Hf : filter (fun ref => negb (fs.(path_exists) (Py.path_join dir_path ref)))
                        (Re.findall_file_refs content) = []).
    { specialize (Hrefs content). induction (Re.findall_file_refs content) as [|x l IH];
        [reflexivity|]. cbn [filter].
      rewrite (Hrefs x eq_refl (or_introl eq_refl)). cbn [negb]. apply IH.
      intros ref Hc Hin. apply Hrefs; [exact Hc | now right]. }
    now rewrite Hf. }
  now rewrite Hw, extend_warnings_nil.
Qed.

Lemma read_one_file_dir (dir content c : string) :
  (skill_dir dir content).(read_text) (Py.path_join dir "SKILL.md") = ReadOk c ->
  c = content.
Proof.
  cbn [skill_dir read_text]. rewrite String.eqb_refl. intros H. now injection H.
Qed.

Lemma directory_result_is_file_result_witness :
  validate_skill_directory None (skill_dir "skill" doc_scenario1) "skill"
  = validate_skill_file None (skill_dir "skill" doc_scenario1) "skill/SKILL.md".
Proof.
  apply (directory_result_is_file_result None (skill_dir "skill" doc_scenario1) "skill").
  - reflexivity.
  - intros content ref Hread Hin.
    apply (read_one_file_dir "skill" doc_scenario1) in Hread. subst content.
    vm_compute in Hin. contradiction.
Defined.

(* ================================================================= *)
(** * The packager *)

Lemma valid_iff_no_errors_dir (yaml : option YamlParser) (fs : FileSystem)
    (dir_path : string) (r : ValidationResult) :
  validate_skill_directory yaml fs dir_path = Ret r -> valid_iff_no_errors r.
Proof.
  unfold validate_skill_directory.
  destruct (negb _); [intros H; injection H as <-; reflexivity|].
  destruct (validate_skill_file yaml fs _) as [r0|] eqn:E; [|discriminate].
  cbn [bind]. intros H. injection H as <-.
  apply valid_iff_no_errors_file in E. exact E.
Qed.

(** Property X19.  [package_skill] returns the path of an archive only for a
    folder that exists, is a directory, holds [SKILL.md] and whose validation
    returned a result without errors; only then is the archive step run. *)
Theorem package_only_valid_skills (yaml : option YamlParser) (fs : FileSystem)
    (env : PackEnv) (skill_path archive : string) (output_dir : option string) :
  snd (package_skill yaml fs env skill_path output_dir) = Returned (Some archive) ->
  fs.(path_exists) (env.(resolve) skill_path) = true
  /\ fs.(path_isdir) (env.(resolve) skill_path) = true
  /\ fs.(path_exists) (Py.path_join (env.(resolve) skill_path) "SKILL.md") = true
  /\ (exists r, validate_skill_directory yaml fs (env.(resolve) skill_path) = Ret r
                /\ r.(valid) = true /\ r.(issues) = [])
  /\ snd (env.(write_archive) (env.(resolve) skill_path) output_dir)
     = Returned (Some archive).
Proof.
  unfold package_skill.
  destruct (fs.(path_exists) (env.(resolve) skill_path)); [|discriminate].
  destruct (fs.(path_isdir) (env.(resolve) skill_path)); [|discriminate].
  destruct (fs.(path_exists) (Py.path_join _ _)); [|discriminate]. cbn [negb].
  destruct (validate_skill_directory yaml fs _) as [r|] eqn:E; [|discriminate].
  destruct (valid r) eqn:Hv; [|discriminate]. cbn [negb].
  destruct (env.(write_archive) _ _) as [printed outcome]. cbn [snd].
  intros ->.
  split; [reflexivity | split; [reflexivity | split; [reflexivity | split; [|reflexivity]]]].
  exists r. split; [reflexivity | split; [exact Hv|]].
  apply valid_iff_no_errors_dir in E. unfold valid_iff_no_errors in E.
  rewrite Hv in E. destruct (issues r); [reflexivity | discriminate E].
Qed.

Lemma package_only_valid_skills_witness :
  (exists r,
     validate_skill_directory None (skill_dir "/work/skill" doc_good) "/work/skill" = Ret r
     /\ r.(valid) = true /\ r.(issues) = [])
  /\ snd (package_skill None (skill_dir "/work/skill" doc_good) pack_env_ok "skill" None)
     = Returned (Some "/work/skill.skill").
Proof.
  assert (H : snd (package_skill None (skill_dir "/work/skill" doc_good) pack_env_ok
                     "skill" None)
              = Returned (Some "/work/skill.skill")) by (vm_compute; reflexivity).
  split; [|exact H].
  exact (proj1 (proj2 (proj2 (proj2 (package_only_valid_skills None
                                       (skill_dir "/work/skill" doc_good) pack_env_ok
                                       "skill" "/work/skill.skill" None H))))).
Defined.

(** Property X20.  When the folder holds [SKILL.md] and validation returns a
    result that is not valid, [package_skill] returns [None] without running
    the archive step, and prints the message of every error of the result,
    of which there is at least one. *)
Theorem package_prints_every_error (yaml : option YamlParser) (fs : FileSystem)
    (env : PackEnv) (skill_path : string) (output_dir : option string)
    (r : ValidationResult) :
  fs.(path_isdir) (env.(resolve) skill_path) = true ->
  fs.(path_exists) (env.(resolve) skill_path) = true ->
  fs.(path_exists) (Py.path_join (env.(resolve) skill_path) "SKILL.md") = true ->
  validate_skill_directory yaml fs (env.(resolve) skill_path) = Ret r ->
  r.(valid) = false ->
  snd (package_skill yaml fs env skill_path output_dir) = Returned None
  /\ r.(issues) <> []
  /\ (forall i, In i r.(issues) ->
        In ("  - " ++ i.(message))%string
           (fst (package_skill yaml fs env skill_path output_dir)))
  /\ (forall env' : PackEnv,
        env'.(resolve) = env.(resolve) ->
        package_skill yaml fs env' skill_path output_dir
        = package_skill yaml fs env skill_path output_dir).
Proof.
  intros Hdir Hex Hmd Hval Hv.
  assert (Hni : r.(issues) <> []).
  { pose proof (valid_iff_no_errors_dir _ _ _ _ Hval) as H.
    unfold valid_iff_no_errors in H. rewrite Hv in H. now destruct (issues r). }
  assert (Heq : package_skill yaml fs env skill_path output_dir
                = (["Validating skill..."] ++ ["Validation failed:"]
                   ++ map (fun issue => ("  - " ++ issue.(message))%string) r.(issues)
                   ++ [(nl ++ "Please fix the validation errors before packaging.")%string],
                   Returned None)).
  { unfold package_skill. now rewrite Hex, Hdir, Hmd, Hval, Hv. }
  split; [now rewrite Heq | split; [exact Hni | split]].
  - intros i Hi. rewrite Heq. cbn [fst]. apply in_or_app. right. apply in_or_app. right.
    apply in_or_app. left. apply in_map_iff. now exists i.
  - intros env' Hr. rewrite Heq. unfold package_skill.
    now rewrite Hr, Hex, Hdir, Hmd, Hval, Hv.
Qed.

Lemma package_prints_every_error_witness :
  snd (package_skill None (skill_dir "/work/skill" doc_no_frontmatter) pack_env_ok
         "skill" None)
  = Returned None
  /\ In ("  - " ++ MSG_MISSING)%string
        (fst (package_skill None (skill_dir "/work/skill" doc_no_frontmatter) pack_env_ok
                "skill" None)).
Proof.
  destruct (package_prints_every_error None (skill_dir "/work/skill" doc_no_frontmatter)
              pack_env_ok "skill" None
              (mkResult false "/work/skill/SKILL.md" PNone PNone
                 [issue_error "frontmatter" MSG_MISSING]
                 [issue_warning "references" "Referenced file not found: missing.py"])
              eq_refl eq_refl eq_refl) as [H1 [_ [H2 _]]].
  - vm_compute. reflexivity.
  - reflexivity.
  - split; [exact H1|]. apply (H2 (issue_error "frontmatter" MSG_MISSING)). now left.
Defined.
